(** * Back-office property dashboard: list loader, detail loader, search filter

    A shallow embedding of [src/pages/backoffice/Properties.tsx].

    - JavaScript numbers are IEEE 754 binary64 values, taken from the
      Standard Library's executable specification [SpecFloat].
    - Dates follow the calendar of ECMAScript; the host's time zone is a
      function of the instant, so that daylight saving time is covered.
    - [String.prototype.toLowerCase] is the host's; what it does to ASCII
      text is written out.
    - The component's [useState] cells form one record that the two async
      loaders thread through a state-and-exception monad.
    - [propertyStats], a [Record<string, PropertyStats>], is a [gmap].
    - The remote tabular store is a record of tables with a fault oracle:
      a query answers with [{ data, error }], never by throwing. *)

From Stdlib Require Import ZArith List String Ascii Bool Lia Permutation.
From Stdlib Require Import Sorting.Sorted.
From Stdlib Require Import Floats.SpecFloat.
From stdpp Require Import gmap strings.

Import ListNotations.
Open Scope string_scope.
Open Scope list_scope.
Open Scope Z_scope.

(* ===================================================================== *)
(** ** JavaScript numbers *)
(* ===================================================================== *)

Module JsNumber.

(** A Number is a binary64 float: 53 bits of precision, exponent bound 1024. *)
Definition number := spec_float.
Definition prec : Z := 53.
Definition emax : Z := 1024.

Definition NaN : number := S754_nan.
Definition of_Z (z : Z) : number := binary_normalize prec emax z 0 false.
Definition of_nat (n : nat) : number := of_Z (Z.of_nat n).

Definition add : number -> number -> number := SFadd prec emax.
Definition sub : number -> number -> number := SFsub prec emax.
Definition mul : number -> number -> number := SFmul prec emax.
Definition div : number -> number -> number := SFdiv prec emax.

(** [a === b] on numbers: false when a side is NaN, true on the two zeros. *)
Definition eqb (a b : number) : bool := SFeqb a b.

Definition is_nan (x : number) : bool :=
  match x with S754_nan => true | _ => false end.

(** Finite numbers: everything but NaN and the two infinities. *)
Definition is_finite (x : number) : bool :=
  match x with S754_zero _ | S754_finite _ _ _ => true | _ => false end.

(** ToBoolean: [+0], [-0] and [NaN] are falsy. *)
Definition ToBoolean (x : number) : bool :=
  match x with S754_zero _ | S754_nan => false | _ => true end.

(** [x || y] on numbers. *)
Definition or_else (x y : number) : number := if ToBoolean x then x else y.

(** [Math.round]: the integer nearest to [x], ties towards +infinity;
    NaN, infinities and zeros are returned as they are, and a result that
    rounds to zero keeps the sign of [x]. *)
Definition Math_round (x : number) : number :=
  match x with
  | S754_finite s m e =>
      if 0 <=? e then x
      else
        let n := if s then Zneg m else Zpos m in
        let r := Z.shiftr (n + Z.shiftl 1 (- e - 1)) (- e) in
        if r =? 0 then S754_zero s else of_Z r
  | _ => x
  end.

Definition zero : number := of_Z 0.
Definition hundred : number := of_Z 100.

(** [reduce((sum, x) => sum + x, 0)]. *)
Definition sum (l : list number) : number := fold_left add l zero.

End JsNumber.

Import JsNumber.

(* ===================================================================== *)
(** ** JavaScript dates *)
(* ===================================================================== *)

Module JsDate.

(** The time value of a Date object: milliseconds since the epoch, or
    [None] for an Invalid Date (time value NaN). *)
Definition timeval := option Z.

Definition msPerDay : Z := 86400000.
Definition Day (t : Z) : Z := t / msPerDay.

Definition DaysInYear (y : Z) : Z :=
  if negb (y mod 4 =? 0) then 365
  else if negb (y mod 100 =? 0) then 366
  else if negb (y mod 400 =? 0) then 365
  else 366.

Definition DayFromYear (y : Z) : Z :=
  365 * (y - 1970) + (y - 1969) / 4 - (y - 1901) / 100 + (y - 1601) / 400.

(** The largest year whose first day is not after day [d]. *)
Definition YearFromDay (d : Z) : Z :=
  let y := 1970 + (400 * d) / 146097 in
  if DayFromYear (y + 1) <=? d then y + 1
  else if DayFromYear y <=? d then y
  else y - 1.

Definition YearFromTime (t : Z) : Z := YearFromDay (Day t).
Definition InLeapYear (t : Z) : Z :=
  if DaysInYear (YearFromTime t) =? 366 then 1 else 0.
Definition DayWithinYear (t : Z) : Z := Day t - DayFromYear (YearFromTime t).

(** Number of days of the year before month [m] (0 = January). *)
Definition DaysBeforeMonth (leap m : Z) : Z :=
  match m with
  | 0 => 0 | 1 => 31 | 2 => 59 + leap | 3 => 90 + leap
  | 4 => 120 + leap | 5 => 151 + leap | 6 => 181 + leap | 7 => 212 + leap
  | 8 => 243 + leap | 9 => 273 + leap | 10 => 304 + leap | _ => 334 + leap
  end.

Definition MonthFromTime (t : Z) : Z :=
  let d := DayWithinYear t in
  let leap := InLeapYear t in
  if d <? 31 then 0
  else if d <? 59 + leap then 1
  else if d <? 90 + leap then 2
  else if d <? 120 + leap then 3
  else if d <? 151 + leap then 4
  else if d <? 181 + leap then 5
  else if d <? 212 + leap then 6
  else if d <? 243 + leap then 7
  else if d <? 273 + leap then 8
  else if d <? 304 + leap then 9
  else if d <? 334 + leap then 10
  else 11.

Definition MakeDay (year month date : Z) : Z :=
  let ym := year + month / 12 in
  let mn := month mod 12 in
  let leap := if DaysInYear ym =? 366 then 1 else 0 in
  DayFromYear ym + DaysBeforeMonth leap mn + date - 1.

Definition MakeDate (day time : Z) : Z := day * msPerDay + time.

Definition TimeClip (t : Z) : timeval :=
  if Z.abs t <=? 8640000000000000 then Some t else None.

(** The time zone of the host, [LocalTZA(t, isUTC)]: the offset of local
    time from UTC in milliseconds, at the UTC instant [t] when [isUTC] is
    true and at the local clock reading [t] when it is false. The offset
    changes with the instant in a zone with daylight saving time. *)
Definition TimeZone : Type := Z -> bool -> Z.

Section LocalTime.

Variable LocalTZA : TimeZone.

Definition LocalTime (t : Z) : Z := t + LocalTZA t true.
Definition UTC (t : Z) : Z := t - LocalTZA t false.

(** [new Date(year, month, date)]: local midnight of that day; a year in
    0..99 means 1900 + year. *)
Definition Date_ymd (year month date : Z) : timeval :=
  let yr := if (0 <=? year) && (year <=? 99) then 1900 + year else year in
  TimeClip (UTC (MakeDate (MakeDay yr month date) 0)).

Definition getFullYear (t : Z) : Z := YearFromTime (LocalTime t).
Definition getMonth (t : Z) : Z := MonthFromTime (LocalTime t).

(** The same getters on a Date that may be invalid: they answer NaN then. *)
Definition getFullYear_num (d : timeval) : number :=
  match d with Some t => of_Z (getFullYear t) | None => NaN end.
Definition getMonth_num (d : timeval) : number :=
  match d with Some t => of_Z (getMonth t) | None => NaN end.

End LocalTime.

(** [a >= b] on Date objects compares the time values; NaN compares false. *)
Definition date_geb (a b : timeval) : bool :=
  match a, b with
  | Some x, Some y => y <=? x
  | _, _ => false
  end.

End JsDate.

Import JsDate.

(* ===================================================================== *)
(** ** JavaScript strings *)
(* ===================================================================== *)

Module JsString.

(** A string holds its text in UTF-8: the characters with a code below 128
    are the ASCII characters, one byte each. *)
Definition is_ascii (c : ascii) : bool := (nat_of_ascii c <? 128)%nat.

Fixpoint ascii_only (s : string) : bool :=
  match s with
  | EmptyString => true
  | String c s' => is_ascii c && ascii_only s'
  end.

(** [String.prototype.toLowerCase] maps case by the Unicode tables of the
    host; the component's search takes it as [toLowerCase] below. On ASCII
    text it is known in full: [A]..[Z] become [a]..[z] and every other
    character stays. *)
Definition lower_ascii (c : ascii) : ascii :=
  let n := nat_of_ascii c in
  if ((65 <=? n) && (n <=? 90))%nat then ascii_of_nat (n + 32) else c.

Fixpoint ascii_toLowerCase (s : string) : string :=
  match s with
  | EmptyString => EmptyString
  | String c s' => String (lower_ascii c) (ascii_toLowerCase s')
  end.

(** A function that does to ASCII text what [toLowerCase] does. *)
Definition lowers_ascii (toLowerCase : string -> string) : Prop :=
  forall s, ascii_only s = true -> toLowerCase s = ascii_toLowerCase s.



(** ToBoolean on strings: only the empty string is falsy. *)
Definition truthy (s : string) : bool :=
  match s with EmptyString => false | _ => true end.

End JsString.

Import JsString.

(* ===================================================================== *)
(** ** Rows of the remote store *)
(* ===================================================================== *)

(** A row of [properties]. *)
Module PropertyRow.
Record t := mk {
  id : string; name : string; address : string; city : string;
  phone : string; email : string; owner_id : string;
  created_at : string; updated_at : string }.
End PropertyRow.

(** A row of [backoffice_users] as the store keeps it. *)
Module BackofficeUserRow.
Record t := mk { user_id : string; role : string; email : string }.
End BackofficeUserRow.

(** What [select('user_id, role')] hands back: the two selected columns.
    Any other property read on such an object is [undefined]. *)
Module BackofficeUser.
Record t := mk { user_id : string; role : string }.
Definition email (u : t) : option string := None.
Definition select (r : BackofficeUserRow.t) : t :=
  mk (BackofficeUserRow.user_id r) (BackofficeUserRow.role r).
End BackofficeUser.

(** A row of [users], as embedded by the foreign-key join
    [users!properties_owner_id_fkey(email, raw_user_meta_data)];
    [meta_name] is [raw_user_meta_data?.name]. *)
Module UserRow.
Record t := mk { id : string; email : option string; meta_name : option string }.
End UserRow.

(** [price] is the value of [Number(room.price)]. *)
Module Room.
Record t := mk { property_id : string; status : string; price : number }.
End Room.

(** [start_date] and [end_date] are the time values of
    [new Date(tenant.start_date)] and [new Date(tenant.end_date)]. *)
Module Tenant.
Record t := mk {
  property_id : string; status : string;
  start_date : timeval; end_date : timeval }.
End Tenant.

(** [amount] is the value of [Number(payment.amount)]; [date] is [None]
    when [p.date] is falsy and otherwise the time value of
    [new Date(p.date)]; [created_at] is the creation instant the store
    orders by. *)
Module Payment.
Record t := mk {
  id : string; property_id : string; status : string;
  amount : number; date : option timeval; created_at : Z }.
End Payment.

Module MaintenanceRequest.
Record t := mk { property_id : string; status : string; priority : string }.
End MaintenanceRequest.

(* ===================================================================== *)
(** ** The remote tabular store *)
(* ===================================================================== *)

Record PostgrestError := { message : string }.

(** Every awaited query resolves to [{ data, error }]. *)
Module Response.
Record t (A : Type) := mk {
  data : option A;
  error : option PostgrestError }.
Arguments mk {A}.
Arguments data {A}.
Arguments error {A}.
End Response.

(** The queries the component issues. *)
Inductive Query :=
| QProperties
| QBackofficeUsers (ownerIds : list string)
| QRooms (property_id : string)
| QTenants (property_id : string)
| QInactiveTenants (property_id : string)
| QPayments (property_id : string)
| QMaintenanceRequests (property_id : string)
| QPropertySingle (property_id : string)
| QPaymentsNewestFirst (property_id : string).

(** A query as the client sends it, with the answer the store gives. *)
Record Request (A : Type) := mkRequest {
  query : Query;
  response : Response.t A }.
Arguments mkRequest {A}.
Arguments query {A}.
Arguments response {A}.

(** Whether an answer carries an error. *)
Definition failed {A : Type} (r : Response.t A) : bool :=
  match Response.error r with Some _ => true | None => false end.

(** Modelled from the spec: the remote tabular query interface behind
    [lib/supabase] (select-all, equality filters, foreign-key joins,
    ordering, single-row fetch), which the sources only call. A snapshot of
    the store: its tables, and which queries fail. *)
Record Backend := {
  tbl_properties : list PropertyRow.t;
  tbl_backoffice_users : list BackofficeUserRow.t;
  tbl_users : list UserRow.t;
  tbl_rooms : list Room.t;
  tbl_tenants : list Tenant.t;
  tbl_payments : list Payment.t;
  tbl_maintenance_requests : list MaintenanceRequest.t;
  fault : Query -> option PostgrestError }.

Module Supabase.

Definition respond {A : Type} (db : Backend) (q : Query) (rows : A) : Request A :=
  mkRequest q
    match fault db q with
    | Some e => Response.mk None (Some e)
    | None => Response.mk (Some rows) None
    end.

(** [.eq(column, value)]. *)
Definition eq_filter {A : Type} (col : A -> string) (v : string) (l : list A) : list A :=
  List.filter (fun r => String.eqb (col r) v) l.

(** [.in(column, values)]. *)
Definition in_filter {A : Type} (col : A -> string) (vs : list string) (l : list A) : list A :=
  List.filter (fun r => existsb (String.eqb (col r)) vs) l.

(** Modelled from the spec: the store's ordering,
    [.order(column, { ascending: false })], as a stable insertion sort,
    largest key first. *)
Fixpoint insert_desc {A : Type} (key : A -> Z) (x : A) (l : list A) : list A :=
  match l with
  | [] => [x]
  | y :: l' => if key y <? key x then x :: l else y :: insert_desc key x l'
  end.

Definition order_desc {A : Type} (key : A -> Z) (l : list A) : list A :=
  fold_right (insert_desc key) [] l.

(** [from('properties').select('*')]. *)
Definition select_properties (db : Backend) : Request (list PropertyRow.t) :=
  respond db QProperties (tbl_properties db).

(** [from('backoffice_users').select('user_id, role').in('user_id', ownerIds)]. *)
Definition select_backoffice_users (db : Backend) (ownerIds : list string)
  : Request (list BackofficeUser.t) :=
  respond db (QBackofficeUsers ownerIds)
    (List.map BackofficeUser.select
       (in_filter BackofficeUserRow.user_id ownerIds (tbl_backoffice_users db))).

(** [from('rooms').select('*').eq('property_id', id)]. *)
Definition select_rooms (db : Backend) (pid : string) : Request (list Room.t) :=
  respond db (QRooms pid) (eq_filter Room.property_id pid (tbl_rooms db)).

(** [from('tenants').select('*').eq('property_id', id)]. *)
Definition select_tenants (db : Backend) (pid : string) : Request (list Tenant.t) :=
  respond db (QTenants pid) (eq_filter Tenant.property_id pid (tbl_tenants db)).

(** [from('tenants').select('*').eq('property_id', id).eq('status', 'inactive')]. *)
Definition select_inactive_tenants (db : Backend) (pid : string) : Request (list Tenant.t) :=
  respond db (QInactiveTenants pid)
    (eq_filter Tenant.status "inactive"
       (eq_filter Tenant.property_id pid (tbl_tenants db))).

(** [from('payments').select('*').eq('property_id', id)]. *)
Definition select_payments (db : Backend) (pid : string) : Request (list Payment.t) :=
  respond db (QPayments pid) (eq_filter Payment.property_id pid (tbl_payments db)).

(** [from('maintenance_requests').select('*').eq('property_id', id)]. *)
Definition select_maintenance_requests (db : Backend) (pid : string)
  : Request (list MaintenanceRequest.t) :=
  respond db (QMaintenanceRequests pid)
    (eq_filter MaintenanceRequest.property_id pid (tbl_maintenance_requests db)).

(** [from('payments').select('*').eq('property_id', id)
      .order('created_at', { ascending: false })]. *)
Definition select_payments_newest_first (db : Backend) (pid : string)
  : Request (list Payment.t) :=
  respond db (QPaymentsNewestFirst pid)
    (order_desc Payment.created_at
       (eq_filter Payment.property_id pid (tbl_payments db))).

(** [from('properties').select('*, users!...(email, raw_user_meta_data)')
      .eq('id', id).single()]: the row with its owner embedded; an error
    when the filter does not leave exactly one row. *)
Definition select_property_single (db : Backend) (pid : string)
  : Request (PropertyRow.t * option UserRow.t) :=
  mkRequest (QPropertySingle pid)
    match fault db (QPropertySingle pid) with
    | Some e => Response.mk None (Some e)
    | None =>
        match eq_filter PropertyRow.id pid (tbl_properties db) with
        | [p] =>
            Response.mk
              (Some (p, List.find (fun u => String.eqb (UserRow.id u) (PropertyRow.owner_id p))
                          (tbl_users db)))
              None
        | _ => Response.mk None
                 (Some {| message := "JSON object requested, multiple (or no) rows returned" |})
        end
    end.

End Supabase.

(* ===================================================================== *)
(** ** The component's data *)
(* ===================================================================== *)

Module PropertyStats.
Record t := mk {
  id : string;
  total_revenue : number;
  total_tenants : nat;
  total_rooms : nat;
  occupied_rooms : nat;
  occupancy_rate : number;
  pending_payments : number;
  monthly_revenue : number;
  yearly_revenue : number;
  maintenance_costs : number;
  avg_room_price : number;
  payment_collection_rate : number;
  overdue_payments : number;
  avg_tenant_stay : number;
  tenant_turnover_rate : number;
  maintenance_requests_open : nat;
  maintenance_requests_total : nat }.
End PropertyStats.

Module PropertyDetails.
Record t := mk {
  id : string; name : string; address : string; city : string;
  phone : string; email : string; owner_id : string;
  owner_email : option string;
  owner_name : option string;
  stats : option PropertyStats.t;
  tenants : option (list Tenant.t);
  rooms : option (list Room.t);
  payments : option (list Payment.t);
  created_at : string; updated_at : string }.

(** [{ ...property, owner_email, owner_name }]. *)
Definition of_row (p : PropertyRow.t) (owner_email owner_name : option string) : t :=
  mk (PropertyRow.id p) (PropertyRow.name p) (PropertyRow.address p)
     (PropertyRow.city p) (PropertyRow.phone p) (PropertyRow.email p)
     (PropertyRow.owner_id p) owner_email owner_name None None None None
     (PropertyRow.created_at p) (PropertyRow.updated_at p).
End PropertyDetails.

(** The seven [useState] cells, and what the handlers emit: the lines
    written to the console, and the queries sent to the store, each with
    whether it came back with an error. *)
Record State := mkState {
  properties : list PropertyDetails.t;
  propertyStats : gmap string PropertyStats.t;
  searchQuery : string;
  isLoading : bool;
  error : option string;
  showPropertyDetails : option string;
  selectedProperty : option PropertyDetails.t;
  console : list (string * PostgrestError);
  requests : list (Query * bool) }.

(** The state of a freshly mounted component. *)
Definition initialState : State :=
  mkState [] ∅ "" true None None None [] [].

(* ===================================================================== *)
(** ** Per-property statistics (the body of the list loader's loop) *)
(* ===================================================================== *)

Section Stats.

(** The host's time zone and the instant [new Date()] reads. *)
Variable LocalTZA : TimeZone.
Variable now : Z.

Definition status_is {A : Type} (status : A -> string) (v : string) (r : A) : bool :=
  String.eqb (status r) v.

Definition totalRooms (rooms : option (list Room.t)) : nat :=
  match rooms with Some l => length l | None => 0%nat end.

Definition occupiedRooms (rooms : option (list Room.t)) : nat :=
  match rooms with
  | Some l => length (List.filter (status_is Room.status "occupied") l)
  | None => 0%nat
  end.

Definition occupancyRate (rooms : option (list Room.t)) : number :=
  if (0 <? totalRooms rooms)%nat
  then Math_round (mul (div (of_nat (occupiedRooms rooms)) (of_nat (totalRooms rooms))) hundred)
  else zero.

Definition avgRoomPrice (rooms : option (list Room.t)) : number :=
  or_else
    (div (match rooms with
          | Some l => fold_left (fun sum room => add sum (Room.price room)) l zero
          | None => NaN
          end)
         (of_nat (totalRooms rooms)))
    zero.

Definition activeTenants (tenants : option (list Tenant.t)) : list Tenant.t :=
  match tenants with
  | Some l => List.filter (status_is Tenant.status "active") l
  | None => []
  end.

Definition totalTenants (tenants : option (list Tenant.t)) : nat :=
  length (activeTenants tenants).

Definition stay_months (tenant : Tenant.t) : number :=
  let start := Tenant.start_date tenant in
  let end_ := Tenant.end_date tenant in
  sub (add (mul (sub (getFullYear_num LocalTZA end_) (getFullYear_num LocalTZA start))
                (of_Z 12))
           (getMonth_num LocalTZA end_))
      (getMonth_num LocalTZA start).

Definition avgTenantStay (tenants : option (list Tenant.t)) : number :=
  div (fold_left (fun sum tenant => add sum (stay_months tenant)) (activeTenants tenants) zero)
      (or_else (of_nat (length (activeTenants tenants))) (of_Z 1)).

Definition turnoverRate (historicalTenants tenants : option (list Tenant.t)) : number :=
  match historicalTenants with
  | Some h =>
      mul (div (of_nat (length h))
               (add (of_nat (length h)) (of_nat (length (activeTenants tenants)))))
          hundred
  | None => zero
  end.

Definition monthStart : timeval := Date_ymd LocalTZA (getFullYear LocalTZA now) (getMonth LocalTZA now) 1.
Definition yearStart : timeval := Date_ymd LocalTZA (getFullYear LocalTZA now) 0 1.

(** [p => { const d = p.date ? new Date(p.date) : null; return d && d >= start }]. *)
Definition dated_since (start : timeval) (p : Payment.t) : bool :=
  match Payment.date p with
  | Some paymentDate => date_geb paymentDate start
  | None => false
  end.

Definition monthlyPayments (payments : option (list Payment.t)) : list Payment.t :=
  match payments with Some l => List.filter (dated_since monthStart) l | None => [] end.

Definition yearlyPayments (payments : option (list Payment.t)) : list Payment.t :=
  match payments with Some l => List.filter (dated_since yearStart) l | None => [] end.

(** [l.reduce((sum, payment) =>
       payment.status === status ? sum + Number(payment.amount) : sum, 0)]. *)
Definition reduce_status (status : string) (l : list Payment.t) : number :=
  fold_left
    (fun sum payment =>
       if status_is Payment.status status payment
       then add sum (Payment.amount payment) else sum)
    l zero.

Definition totalRevenue (payments : option (list Payment.t)) : number :=
  match payments with Some l => or_else (reduce_status "paid" l) zero | None => zero end.

Definition monthlyRevenue (payments : option (list Payment.t)) : number :=
  reduce_status "paid" (monthlyPayments payments).

Definition yearlyRevenue (payments : option (list Payment.t)) : number :=
  reduce_status "paid" (yearlyPayments payments).

Definition pendingPayments (payments : option (list Payment.t)) : number :=
  match payments with Some l => or_else (reduce_status "pending" l) zero | None => zero end.

Definition overduePayments (payments : option (list Payment.t)) : number :=
  match payments with Some l => or_else (reduce_status "overdue" l) zero | None => zero end.

Definition totalPayments (payments : option (list Payment.t)) : nat :=
  match payments with Some l => length l | None => 0%nat end.

Definition paidPayments (payments : option (list Payment.t)) : nat :=
  match payments with
  | Some l => length (List.filter (status_is Payment.status "paid") l)
  | None => 0%nat
  end.

Definition paymentCollectionRate (payments : option (list Payment.t)) : number :=
  if (0 <? totalPayments payments)%nat
  then mul (div (of_nat (paidPayments payments)) (of_nat (totalPayments payments))) hundred
  else zero.

Definition openRequests (maintenanceRequests : option (list MaintenanceRequest.t)) : nat :=
  match maintenanceRequests with
  | Some l =>
      length (List.filter
                (fun r => status_is MaintenanceRequest.status "pending" r
                          || status_is MaintenanceRequest.status "in-progress" r) l)
  | None => 0%nat
  end.

Definition estimatedCost (request : MaintenanceRequest.t) : number :=
  if String.eqb (MaintenanceRequest.priority request) "high" then of_Z 1000000
  else if String.eqb (MaintenanceRequest.priority request) "medium" then of_Z 500000
  else of_Z 250000.

Definition maintenanceCosts (maintenanceRequests : option (list MaintenanceRequest.t)) : number :=
  match maintenanceRequests with
  | Some l => or_else (fold_left (fun sum request => add sum (estimatedCost request)) l zero) zero
  | None => zero
  end.

(** The record stored under [stats[property.id]]. *)
Definition computeStats (pid : string)
    (rooms : option (list Room.t))
    (tenants historicalTenants : option (list Tenant.t))
    (payments : option (list Payment.t))
    (maintenanceRequests : option (list MaintenanceRequest.t)) : PropertyStats.t :=
  {| PropertyStats.id := pid;
     PropertyStats.total_revenue := totalRevenue payments;
     PropertyStats.monthly_revenue := monthlyRevenue payments;
     PropertyStats.yearly_revenue := yearlyRevenue payments;
     PropertyStats.total_tenants := totalTenants tenants;
     PropertyStats.total_rooms := totalRooms rooms;
     PropertyStats.occupied_rooms := occupiedRooms rooms;
     PropertyStats.occupancy_rate := occupancyRate rooms;
     PropertyStats.pending_payments := pendingPayments payments;
     PropertyStats.maintenance_costs := maintenanceCosts maintenanceRequests;
     PropertyStats.avg_room_price := avgRoomPrice rooms;
     PropertyStats.payment_collection_rate := paymentCollectionRate payments;
     PropertyStats.overdue_payments := overduePayments payments;
     PropertyStats.avg_tenant_stay := Math_round (avgTenantStay tenants);
     PropertyStats.tenant_turnover_rate := Math_round (turnoverRate historicalTenants tenants);
     PropertyStats.maintenance_requests_open := openRequests maintenanceRequests;
     PropertyStats.maintenance_requests_total :=
       match maintenanceRequests with Some l => length l | None => 0%nat end |}.

End Stats.

(* ===================================================================== *)
(** ** State and exceptions *)
(* ===================================================================== *)

Inductive outcome (A : Type) :=
| Return (a : A)
| Throw (err : PostgrestError).
Arguments Return {A}.
Arguments Throw {A}.

(** An async handler: it updates the state cells and either completes or
    throws. *)
Definition M (A : Type) : Type := State -> State * outcome A.

Definition ret {A : Type} (a : A) : M A := fun s => (s, Return a).

Definition bind {A B : Type} (m : M A) (k : A -> M B) : M B :=
  fun s =>
    match m s with
    | (s', Return a) => k a s'
    | (s', Throw e) => (s', Throw e)
    end.

Definition throw {A : Type} (e : PostgrestError) : M A := fun s => (s, Throw e).

Declare Scope js_scope.
Delimit Scope js_scope with js.
Notation "x <- m ;; k" := (bind m (fun x => k))
  (at level 100, m at next level, right associativity) : js_scope.
Notation "m ;;; k" := (bind m (fun _ => k))
  (at level 100, right associativity) : js_scope.

(** [try { body } catch (err) { handler(err) } finally { final }]. *)
Definition try_catch_finally (body : M unit) (handler : PostgrestError -> M unit)
    (final : M unit) : M unit :=
  fun s =>
    match body s with
    | (s', Return _) => final s'
    | (s', Throw e) =>
        match handler e s' with
        | (s'', Return _) => final s''
        | (s'', Throw e') =>
            match final s'' with
            | (s''', Return _) => (s''', Throw e')
            | (s''', Throw e'') => (s''', Throw e'')
            end
        end
    end.

(** [await query]: the query goes out and the store answers; the state
    cells are untouched. *)
Definition await {A : Type} (rq : Request A) : M (Response.t A) :=
  fun s => (mkState (properties s) (propertyStats s) (searchQuery s) (isLoading s)
              (error s) (showPropertyDetails s) (selectedProperty s) (console s)
              (requests s ++ [(query rq, failed (response rq))]),
            Return (response rq)).

(** [if (error) throw error]. *)
Definition throw_if_error {A : Type} (r : Response.t A) : M unit :=
  match Response.error r with
  | Some e => throw e
  | None => ret tt
  end.

(** [for (const x of l) { acc = body(x, acc) }]. *)
Fixpoint for_of {A S : Type} (l : list A) (body : A -> S -> M S) (acc : S) : M S :=
  match l with
  | [] => ret acc
  | x :: l' => bind (body x acc) (for_of l' body)
  end.

Definition setProperties (v : list PropertyDetails.t) : M unit :=
  fun s => (mkState v (propertyStats s) (searchQuery s) (isLoading s) (error s)
              (showPropertyDetails s) (selectedProperty s) (console s) (requests s), Return tt).

Definition setPropertyStats (v : gmap string PropertyStats.t) : M unit :=
  fun s => (mkState (properties s) v (searchQuery s) (isLoading s) (error s)
              (showPropertyDetails s) (selectedProperty s) (console s) (requests s), Return tt).


Definition setIsLoading (v : bool) : M unit :=
  fun s => (mkState (properties s) (propertyStats s) (searchQuery s) v (error s)
              (showPropertyDetails s) (selectedProperty s) (console s) (requests s), Return tt).

Definition setError (v : option string) : M unit :=
  fun s => (mkState (properties s) (propertyStats s) (searchQuery s) (isLoading s) v
              (showPropertyDetails s) (selectedProperty s) (console s) (requests s), Return tt).

Definition setShowPropertyDetails (v : option string) : M unit :=
  fun s => (mkState (properties s) (propertyStats s) (searchQuery s) (isLoading s)
              (error s) v (selectedProperty s) (console s) (requests s), Return tt).

Definition setSelectedProperty (v : option PropertyDetails.t) : M unit :=
  fun s => (mkState (properties s) (propertyStats s) (searchQuery s) (isLoading s)
              (error s) (showPropertyDetails s) v (console s) (requests s), Return tt).

Definition console_error (label : string) (err : PostgrestError) : M unit :=
  fun s => (mkState (properties s) (propertyStats s) (searchQuery s) (isLoading s)
              (error s) (showPropertyDetails s) (selectedProperty s)
              (console s ++ [(label, err)]) (requests s), Return tt).

(** The state a handler leaves behind. *)
Definition run {A : Type} (m : M A) (s : State) : State := fst (m s).

(* ===================================================================== *)
(** ** The component's handlers *)
(* ===================================================================== *)

Section Component.

Variable LocalTZA : TimeZone.
Variable now : Z.
Variable db : Backend.

Open Scope js_scope.

(** [x || 'Unknown'] on an optional string. *)
Definition or_unknown (x : option string) : string :=
  match x with
  | Some s => if truthy s then s else "Unknown"
  | None => "Unknown"
  end.

(** The mapping callback that attaches owner information to a property. *)
Definition withOwner (backofficeUsers : option (list BackofficeUser.t))
    (property : PropertyRow.t) : PropertyDetails.t :=
  let backofficeUser :=
    match backofficeUsers with
    | Some us =>
        List.find (fun u => String.eqb (BackofficeUser.user_id u) (PropertyRow.owner_id property)) us
    | None => None
    end in
  PropertyDetails.of_row property
    (Some (or_unknown (match backofficeUser with
                       | Some u => BackofficeUser.email u
                       | None => None
                       end)))
    (Some (or_unknown (match backofficeUser with
                       | Some u => Some (BackofficeUser.role u)
                       | None => None
                       end))).

Definition propertiesWithOwners (propertiesData : option (list PropertyRow.t))
    (backofficeUsers : option (list BackofficeUser.t)) : list PropertyDetails.t :=
  List.map (withOwner backofficeUsers) (default [] propertiesData).

(** One turn of the statistics loop: five awaited queries, of which only
    [data] is read, then [stats[property.id] = { ... }]. *)
Definition loadStatsFor (property : PropertyRow.t)
    (stats : gmap string PropertyStats.t) : M (gmap string PropertyStats.t) :=
  let pid := PropertyRow.id property in
  roomsR <- await (Supabase.select_rooms db pid) ;;
  tenantsR <- await (Supabase.select_tenants db pid) ;;
  historicalR <- await (Supabase.select_inactive_tenants db pid) ;;
  paymentsR <- await (Supabase.select_payments db pid) ;;
  maintenanceR <- await (Supabase.select_maintenance_requests db pid) ;;
  ret (<[ pid := computeStats LocalTZA now pid (Response.data roomsR) (Response.data tenantsR)
                   (Response.data historicalR) (Response.data paymentsR) (Response.data maintenanceR) ]> stats).

Definition loadProperties : M unit :=
  try_catch_finally
    (setIsLoading true ;;;
     setError None ;;;
     propertiesR <- await (Supabase.select_properties db) ;;
     throw_if_error propertiesR ;;;
     let propertiesData := Response.data propertiesR in
     let ownerIds := List.map PropertyRow.owner_id (default [] propertiesData) in
     backofficeR <- await (Supabase.select_backoffice_users db ownerIds) ;;
     throw_if_error backofficeR ;;;
     setProperties (propertiesWithOwners propertiesData (Response.data backofficeR)) ;;;
     stats <- for_of (default [] propertiesData) loadStatsFor ∅ ;;
     setPropertyStats stats)
    (fun err =>
       console_error "Error loading properties:" err ;;;
       setError (Some "Failed to load properties"))
    (setIsLoading false).

(** [x || y] on optional strings. *)
Definition or_string (x y : option string) : option string :=
  match x with
  | Some s => if truthy s then Some s else y
  | None => y
  end.

Definition loadPropertyDetails (propertyId : string) : M unit :=
  fun s0 =>
  (* the handler closes over the [propertyStats] of the render it belongs to *)
  let propertyStats0 := propertyStats s0 in
  try_catch_finally
    (setIsLoading true ;;;
     setError None ;;;
     propertyR <- await (Supabase.select_property_single db propertyId) ;;
     throw_if_error propertyR ;;;
     roomsR <- await (Supabase.select_rooms db propertyId) ;;
     throw_if_error roomsR ;;;
     tenantsR <- await (Supabase.select_tenants db propertyId) ;;
     throw_if_error tenantsR ;;;
     paymentsR <- await (Supabase.select_payments_newest_first db propertyId) ;;
     throw_if_error paymentsR ;;;
     match Response.data propertyR with
     | Some (property, users) =>
         let users_email := users ≫= UserRow.email in
         let users_name := users ≫= UserRow.meta_name in
         setSelectedProperty (Some
           {| PropertyDetails.id := PropertyRow.id property;
              PropertyDetails.name := PropertyRow.name property;
              PropertyDetails.address := PropertyRow.address property;
              PropertyDetails.city := PropertyRow.city property;
              PropertyDetails.phone := PropertyRow.phone property;
              PropertyDetails.email := PropertyRow.email property;
              PropertyDetails.owner_id := PropertyRow.owner_id property;
              PropertyDetails.owner_email := users_email;
              PropertyDetails.owner_name := or_string users_name users_email;
              PropertyDetails.stats := propertyStats0 !! propertyId;
              PropertyDetails.rooms := Response.data roomsR;
              PropertyDetails.tenants := Response.data tenantsR;
              PropertyDetails.payments := Response.data paymentsR;
              PropertyDetails.created_at := PropertyRow.created_at property;
              PropertyDetails.updated_at := PropertyRow.updated_at property |})
     | None =>
         (* reading [property.users] of [null] raises a TypeError *)
         throw {| message := "TypeError: Cannot read properties of null" |}
     end)
    (fun err =>
       console_error "Error loading property details:" err ;;;
       setError (Some "Failed to load property details") ;;;
       setSelectedProperty None)
    (setIsLoading false)
    s0.

Definition handleViewDetails (propertyId : string) : M unit :=
  setShowPropertyDetails (Some propertyId) ;;;
  loadPropertyDetails propertyId.

End Component.

(* ===================================================================== *)
(** ** The view *)
(* ===================================================================== *)

Section Search.

(** [String.prototype.toLowerCase] of the host. *)
Variable toLowerCase : string -> string.




End Search.

(** The payments listed under Recent Activity:
    [selectedProperty.payments?.slice(0, 5)]. *)
Definition recentActivity (selected : PropertyDetails.t) : list Payment.t :=
  match PropertyDetails.payments selected with
  | Some l => firstn 5 l
  | None => []
  end.

(** The modal is rendered when [showPropertyDetails && selectedProperty]. *)
Definition modalShown (s : State) : option PropertyDetails.t :=
  match showPropertyDetails s with
  | Some pid => if truthy pid then selectedProperty s else None
  | None => None
  end.

(* ===================================================================== *)
(** ** Vocabulary of the specification *)
(* ===================================================================== *)

(** *** Case-insensitive substrings *)









(** *** What the list loader stores and sends *)

Section ListLoadSpec.

Variable LocalTZA : TimeZone.
Variable now : Z.
Variable db : Backend.

(** The statistics of one property, from what its five queries answer. *)
Definition statsFor (pid : string) : PropertyStats.t :=
  computeStats LocalTZA now pid
    (Response.data (response (Supabase.select_rooms db pid)))
    (Response.data (response (Supabase.select_tenants db pid)))
    (Response.data (response (Supabase.select_inactive_tenants db pid)))
    (Response.data (response (Supabase.select_payments db pid)))
    (Response.data (response (Supabase.select_maintenance_requests db pid))).

Definition allStats (l : list PropertyRow.t) (acc : gmap string PropertyStats.t)
  : gmap string PropertyStats.t :=
  fold_left (fun st p => <[ PropertyRow.id p := statsFor (PropertyRow.id p) ]> st) l acc.

Definition sent {A : Type} (rq : Request A) : Query * bool :=
  (query rq, failed (response rq)).

(** The five queries of one turn of the statistics loop. *)
Definition requestsFor (p : PropertyRow.t) : list (Query * bool) :=
  let pid := PropertyRow.id p in
  [ sent (Supabase.select_rooms db pid);
    sent (Supabase.select_tenants db pid);
    sent (Supabase.select_inactive_tenants db pid);
    sent (Supabase.select_payments db pid);
    sent (Supabase.select_maintenance_requests db pid) ].

(** The owner cross-reference query of the list loader. *)
Definition ownersQuery : Query :=
  QBackofficeUsers (List.map PropertyRow.owner_id (tbl_properties db)).

(** The list the loader shows when its first two queries succeed. *)
Definition loadedProperties : list PropertyDetails.t :=
  propertiesWithOwners (Some (tbl_properties db))
    (Some (List.map BackofficeUser.select
             (Supabase.in_filter BackofficeUserRow.user_id
                (List.map PropertyRow.owner_id (tbl_properties db))
                (tbl_backoffice_users db)))).

End ListLoadSpec.

(** The queries a handler sent during a run started in [s]. *)
Definition sent_during {A : Type} (m : M A) (s : State) : list (Query * bool) :=
  skipn (length (requests s)) (requests (run m s)).

(** The first backoffice user whose [user_id] is the property's owner. *)
Definition owner_of (db : Backend) (p : PropertyRow.t) : option BackofficeUserRow.t :=
  List.find (fun u => String.eqb (BackofficeUserRow.user_id u) (PropertyRow.owner_id p))
    (tbl_backoffice_users db).

(** *** The list loader aborts on any failed query (as the specification states it) *)

(** Some query sent by the list loader came back with an error. *)
Definition list_load_query_failed (LocalTZA : TimeZone) (now : Z) (db : Backend) (s : State) : Prop :=
  exists q, In (q, true) (sent_during (loadProperties LocalTZA now db) s).

(** The load was aborted: the message is shown and nothing of this load,
    neither list nor statistics, is in the state. *)
Definition list_load_aborted (LocalTZA : TimeZone) (now : Z) (db : Backend) (s : State) : Prop :=
  let s' := run (loadProperties LocalTZA now db) s in
  error s' = Some "Failed to load properties"
  /\ properties s' = properties s
  /\ propertyStats s' = propertyStats s.

(** *** A small store to run the handlers on *)

Module Example.

(** 2024-03-15T12:00:00Z, seen from UTC+7 (a zone without daylight
    saving time). *)
Definition now : Z := 1710504000000.
Definition tz : TimeZone := fun _ _ => 25200000.

Definition melati : PropertyRow.t :=
  PropertyRow.mk "p1" "Kost Melati" "Jl. Dago 1" "Bandung" "022-1"
    "melati@example.com" "u1" "2024-01-01" "2024-01-01".

Definition no_fault : Query -> option PostgrestError := fun _ => None.

Definition timeout : PostgrestError := {| message := "upstream request timeout" |}.

Definition rooms_down : Query -> option PostgrestError :=
  fun q => match q with QRooms _ => Some timeout | _ => None end.

Definition payments : list Payment.t :=
  [ Payment.mk "pay1" "p1" "paid" (of_Z 500000) (Some (Some 1710000000000)) 10;
    Payment.mk "pay2" "p1" "pending" (of_Z 450000) (Some (Some 1710100000000)) 20;
    Payment.mk "pay3" "p1" "overdue" (of_Z 400000) None 30;
    Payment.mk "pay4" "p1" "paid" (of_Z 300000) (Some (Some 1700000000000)) 40;
    Payment.mk "pay5" "p1" "cancelled" (of_Z 100000) (Some (Some 1710200000000)) 50;
    Payment.mk "pay6" "p1" "paid" (of_Z 200000) (Some None) 60;
    Payment.mk "pay7" "p2" "paid" (of_Z 700000) (Some (Some 1710000000000)) 70 ].

Definition tenants_down : Query -> option PostgrestError :=
  fun q => match q with QTenants _ => Some timeout | _ => None end.

(** A paid payment dated 2025-01-10, ten months after [now]. *)
Definition prepaid : list Payment.t :=
  [ Payment.mk "pay8" "p1" "paid" (of_Z 600000) (Some (Some 1736467200000)) 80 ].

(** US Eastern time with its clock changes of 2024: daylight time (UTC-4)
    from 2024-03-10T07:00Z to 2024-11-03T06:00Z, standard time (UTC-5)
    otherwise. A local reading that a clock change skips or repeats takes
    the offset before the change. *)
Definition eastern : TimeZone :=
  fun t isUTC =>
    if isUTC
    then if (1710054000000 <=? t) && (t <? 1730613600000) then -14400000 else -18000000
    else if (1710039600000 <=? t) && (t <? 1730599200000) then -14400000 else -18000000.

(** 2024-11-15T12:00:00Z: standard time, in a month and a year that began
    in daylight time and in standard time. *)
Definition autumn : Z := 1731672000000.

(** Paid on 2024-11-01 at 00:30 local time (04:30Z), on 2023-12-31 at 23:30
    local time (04:30Z on 2024-01-01) and on 2024-06-01; pending on
    2024-11-10. *)
Definition autumn_payments : list Payment.t :=
  [ Payment.mk "a1" "p1" "paid" (of_Z 500000) (Some (Some 1730435400000)) 10;
    Payment.mk "a2" "p1" "paid" (of_Z 300000) (Some (Some 1704083400000)) 20;
    Payment.mk "a3" "p1" "paid" (of_Z 200000) (Some (Some 1717243200000)) 30;
    Payment.mk "a4" "p1" "pending" (of_Z 100000) (Some (Some 1731240000000)) 40 ].

Definition store (roles : string) (f : Query -> option PostgrestError) : Backend :=
  {| tbl_properties := [melati];
     tbl_backoffice_users := [BackofficeUserRow.mk "u1" roles "owner@example.com"];
     tbl_users := [UserRow.mk "u1" (Some "owner@example.com") (Some "Ibu Sari")];
     tbl_rooms := [Room.mk "p1" "occupied" (of_Z 1500000);
                   Room.mk "p1" "available" (of_Z 1200000);
                   Room.mk "p1" "occupied" (of_Z 900000)];
     tbl_tenants := [Tenant.mk "p1" "active" (Some 1704067200000) (Some 1719792000000);
                     Tenant.mk "p1" "inactive" (Some 1672531200000) (Some 1688169600000)];
     tbl_payments := payments;
     tbl_maintenance_requests := [MaintenanceRequest.mk "p1" "pending" "high"];
     fault := f |}.

(** The store some time later: a room vacated, a tenant gone, one more
    payment. *)
Definition store_later : Backend :=
  {| tbl_properties := [melati];
     tbl_backoffice_users := [BackofficeUserRow.mk "u1" "admin" "owner@example.com"];
     tbl_users := [UserRow.mk "u1" (Some "owner@example.com") (Some "Ibu Sari")];
     tbl_rooms := [Room.mk "p1" "available" (of_Z 1500000);
                   Room.mk "p1" "available" (of_Z 1200000);
                   Room.mk "p1" "occupied" (of_Z 900000)];
     tbl_tenants := [Tenant.mk "p1" "inactive" (Some 1704067200000) (Some 1719792000000);
                     Tenant.mk "p1" "inactive" (Some 1672531200000) (Some 1688169600000)];
     tbl_payments := payments ++ prepaid;
     tbl_maintenance_requests := [];
     fault := no_fault |}.

(** A property nobody has rented yet: rooms, but no tenant rows. *)
Definition vacant : Backend :=
  {| tbl_properties := [melati];
     tbl_backoffice_users := [BackofficeUserRow.mk "u1" "admin" "owner@example.com"];
     tbl_users := [];
     tbl_rooms := [Room.mk "p1" "available" (of_Z 1500000)];
     tbl_tenants := [];
     tbl_payments := [];
     tbl_maintenance_requests := [];
     fault := no_fault |}.

End Example.

(** *** Owner fields of a loaded property (as the specification states it) *)

Definition owner_fields_as_claimed (db : Backend) (row : PropertyRow.t)
    (p : PropertyDetails.t) : Prop :=
  PropertyDetails.owner_email p = Some "Unknown"
  /\ PropertyDetails.owner_name p =
     Some (match owner_of db row with
           | Some u => BackofficeUserRow.role u
           | None => "Unknown"
           end).

(** The same, with the fallback of [||] for an empty role. *)
Definition owner_fields (db : Backend) (row : PropertyRow.t)
    (p : PropertyDetails.t) : Prop :=
  PropertyDetails.owner_email p = Some "Unknown"
  /\ PropertyDetails.owner_name p =
     Some (match owner_of db row with
           | Some u =>
               if String.eqb (BackofficeUserRow.role u) "" then "Unknown"
               else BackofficeUserRow.role u
           | None => "Unknown"
           end).

(** *** The detail loader *)

(** One of the detail loader's four queries comes back with an error. *)
Definition detail_query_failed (db : Backend) (pid : string) : Prop :=
  failed (response (Supabase.select_property_single db pid)) = true
  \/ failed (response (Supabase.select_rooms db pid)) = true
  \/ failed (response (Supabase.select_tenants db pid)) = true
  \/ failed (response (Supabase.select_payments_newest_first db pid)) = true.

(** [a] comes no later than [b] in descending order of [key]. *)
Definition key_ge {A : Type} (key : A -> Z) (a b : A) : Prop := key b <= key a.

(** [a] was created no earlier than [b]. *)
Definition newer_or_equal (a b : Payment.t) : Prop :=
  Payment.created_at b <= Payment.created_at a.

(** The payments of a property, as the store holds them. *)
Definition paymentsOf (db : Backend) (pid : string) : list Payment.t :=
  Supabase.eq_filter Payment.property_id pid (tbl_payments db).

(** *** Sums over payments *)

(** IEEE equality of two numbers ([a === b]): equal values, the two zeros
    alike. *)
Definition num_equal (a b : number) : Prop := JsNumber.eqb a b = true.

Definition finite_amounts (l : list Payment.t) : Prop :=
  Forall (fun p => is_finite (Payment.amount p) = true) l.

(** The payment's status reads [status]. *)
Definition has_status (status : string) (p : Payment.t) : bool :=
  if string_dec (Payment.status p) status then true else false.

(** The amounts of the paid payments that pass [keep], in list order. *)
Definition paid_amounts (keep : Payment.t -> bool) (l : list Payment.t) : list number :=
  List.map Payment.amount (List.filter (fun p => has_status "paid" p && keep p) l).

(** The amounts of the payments with a given status, in list order. *)
Definition amounts_with (status : string) (l : list Payment.t) : list number :=
  List.map Payment.amount (List.filter (has_status status) l).

(** A payment whose status is none of the three that are summed. *)
Definition other_status (p : Payment.t) : Prop :=
  Payment.status p <> "paid" /\ Payment.status p <> "pending"
  /\ Payment.status p <> "overdue".

(** The payment carries a valid date at or after the instant [start]; no
    payment does when [start] is no instant at all. *)
Definition dated_from (start : timeval) (p : Payment.t) : bool :=
  match start, Payment.date p with
  | Some from, Some (Some t) => from <=? t
  | _, _ => false
  end.

(** The payment is dated in the calendar month of [now], up to [now]
    (the window the specification states). *)
Definition in_month_to_date (LocalTZA : TimeZone) (now : Z) (p : Payment.t) : bool :=
  match Payment.date p with
  | Some (Some t) =>
      (getFullYear LocalTZA t =? getFullYear LocalTZA now)
      && (getMonth LocalTZA t =? getMonth LocalTZA now)
      && (t <=? now)
  | _ => false
  end.

(** The payment is dated in the calendar year of [now], up to [now]. *)
Definition in_year_to_date (LocalTZA : TimeZone) (now : Z) (p : Payment.t) : bool :=
  match Payment.date p with
  | Some (Some t) => (getFullYear LocalTZA t =? getFullYear LocalTZA now) && (t <=? now)
  | _ => false
  end.

(** *** Room statistics *)

Definition finite_prices (l : list Room.t) : Prop :=
  Forall (fun r => is_finite (Room.price r) = true) l.

(** [r] is an integer nearest to the exact percentage [100 * part / whole]:
    it differs from it by at most one half. *)
Definition nearest_percent (part whole r : Z) : Prop :=
  200 * part - whole <= 2 * whole * r <= 200 * part + whole.

(** *** Calendar months *)

(** The first day of the calendar month that contains the instant [u]. *)
Definition firstDayOfMonth (u : Z) : Z :=
  DayFromYear (YearFromTime u) + DaysBeforeMonth (InLeapYear u) (MonthFromTime u).

(** Number of days of the year before the month after month [m]. *)
Definition DaysBeforeNextMonth (leap m : Z) : Z :=
  if m =? 11 then 365 + leap else DaysBeforeMonth leap (m + 1).

(** The day after the last day of that month. *)
Definition firstDayOfNextMonth (u : Z) : Z :=
  DayFromYear (YearFromTime u) + DaysBeforeNextMonth (InLeapYear u) (MonthFromTime u).

(** The calendar month of [u] is not after that of [v]: earlier year, or
    same year and no later month. *)
Definition month_le (u v : Z) : Prop :=
  YearFromTime u < YearFromTime v
  \/ (YearFromTime u = YearFromTime v /\ MonthFromTime u <= MonthFromTime v).

(** *** The starts of the two revenue windows *)

(** The day of the month, 1 to 31. *)
Definition DateFromTime (t : Z) : Z :=
  DayWithinYear t - DaysBeforeMonth (InLeapYear t) (MonthFromTime t) + 1.

(** The local clock readings "midnight on the first day of the month" and
    "midnight on the first day of the year" that the local clock shows at
    [now]. *)
Definition month_midnight (LocalTZA : TimeZone) (now : Z) : Z :=
  firstDayOfMonth (LocalTime LocalTZA now) * msPerDay.

Definition year_midnight (LocalTZA : TimeZone) (now : Z) : Z :=
  DayFromYear (YearFromTime (LocalTime LocalTZA now)) * msPerDay.

(** The local clock reading [l] exists: no clock change skips it, so the
    instant the zone assigns to it reads [l] on the local clock. *)
Definition reading_exists (LocalTZA : TimeZone) (l : Z) : Prop :=
  LocalTime LocalTZA (UTC LocalTZA l) = l.

(** At the instant [start] the local clock reads midnight, on the first
    day of the month it shows at [now]. *)
Definition starts_local_month (LocalTZA : TimeZone) (now start : Z) : Prop :=
  YearFromTime (LocalTime LocalTZA start) = YearFromTime (LocalTime LocalTZA now)
  /\ MonthFromTime (LocalTime LocalTZA start) = MonthFromTime (LocalTime LocalTZA now)
  /\ DateFromTime (LocalTime LocalTZA start) = 1
  /\ LocalTime LocalTZA start mod msPerDay = 0.

(** At the instant [start] the local clock reads midnight, on the first of
    January of the year it shows at [now]. *)
Definition starts_local_year (LocalTZA : TimeZone) (now start : Z) : Prop :=
  YearFromTime (LocalTime LocalTZA start) = YearFromTime (LocalTime LocalTZA now)
  /\ MonthFromTime (LocalTime LocalTZA start) = 0
  /\ DateFromTime (LocalTime LocalTZA start) = 1
  /\ LocalTime LocalTZA start mod msPerDay = 0.

(* ===================================================================== *)
(** * Proofs *)
(* ===================================================================== *)

(* ===================================================================== *)
(** ** Strings: what [includes] and lowering decide *)
(* ===================================================================== *)

Section StringFacts.










End StringFacts.


Section SearchFilter.

(** The host's [toLowerCase], of which only its action on ASCII text is
    assumed. *)
Variable toLowerCase : string -> string.
Hypothesis toLowerCase_ascii : lowers_ascii toLowerCase.



End SearchFilter.


(* ===================================================================== *)
(** ** The list loader, run *)
(* ===================================================================== *)

Section ListLoad.

Variable LocalTZA : TimeZone.
Variable now : Z.
Variable db : Backend.

Lemma for_of_loadStatsFor (l : list PropertyRow.t) (acc : gmap string PropertyStats.t) (s : State) :
  for_of l (loadStatsFor LocalTZA now db) acc s =
  (mkState (properties s) (propertyStats s) (searchQuery s) (isLoading s)
     (error s) (showPropertyDetails s) (selectedProperty s) (console s)
     (requests s ++ flat_map (requestsFor db) l),
   Return (allStats LocalTZA now db l acc)).
Proof.
  revert acc s; induction l as [|p l IH]; intros acc s.
  - destruct s; simpl. now rewrite app_nil_r.
  - simpl for_of. unfold bind at 1. unfold loadStatsFor at 1.
    unfold bind, await, ret. simpl. rewrite IH. simpl.
    rewrite <- !app_assoc. reflexivity.
Qed.

(** The properties query fails: the handler stops there. *)
Lemma loadProperties_properties_failed (s : State) (e : PostgrestError) :
  fault db QProperties = Some e ->
  loadProperties LocalTZA now db s =
  (mkState (properties s) (propertyStats s) (searchQuery s) false
     (Some "Failed to load properties") (showPropertyDetails s) (selectedProperty s)
     (console s ++ [("Error loading properties:", e)])
     (requests s ++ [(QProperties, true)]),
   Return tt).
Proof.
  intros H. unfold loadProperties, try_catch_finally, bind, await, throw_if_error,
    Supabase.select_properties, Supabase.respond, failed. simpl.
  rewrite H. reflexivity.
Qed.

(** The owner cross-reference query fails: likewise. *)
Lemma loadProperties_owners_failed (s : State) (e : PostgrestError) :
  fault db QProperties = None ->
  fault db (ownersQuery db) = Some e ->
  loadProperties LocalTZA now db s =
  (mkState (properties s) (propertyStats s) (searchQuery s) false
     (Some "Failed to load properties") (showPropertyDetails s) (selectedProperty s)
     (console s ++ [("Error loading properties:", e)])
     (requests s ++ [(QProperties, false); (ownersQuery db, true)]),
   Return tt).
Proof.
  intros H1 H2. unfold ownersQuery in *.
  unfold loadProperties, try_catch_finally, bind, await, throw_if_error,
    Supabase.select_properties, Supabase.select_backoffice_users, Supabase.respond, failed.
  simpl. rewrite H1. simpl. rewrite H2. simpl. rewrite <- app_assoc. reflexivity.
Qed.

(** Both succeed: the list is shown and the statistics loop runs to its
    end, whatever its own queries answer. *)
Lemma loadProperties_loaded (s : State) :
  fault db QProperties = None ->
  fault db (ownersQuery db) = None ->
  loadProperties LocalTZA now db s =
  (mkState (loadedProperties db) (allStats LocalTZA now db (tbl_properties db) ∅)
     (searchQuery s) false None (showPropertyDetails s) (selectedProperty s) (console s)
     (requests s ++ [(QProperties, false); (ownersQuery db, false)]
        ++ flat_map (requestsFor db) (tbl_properties db)),
   Return tt).
Proof.
  intros H1 H2. unfold ownersQuery in *.
  unfold loadProperties, try_catch_finally, bind at 1 2 3 4 5 6 7 8, await, throw_if_error,
    Supabase.select_properties, Supabase.select_backoffice_users, Supabase.respond, failed.
  simpl. rewrite H1. simpl. rewrite H2. simpl.
  unfold bind. rewrite for_of_loadStatsFor. simpl.
  unfold loadedProperties. rewrite <- !app_assoc. reflexivity.
Qed.

End ListLoad.

Section ListLoadClaims.

Variable LocalTZA : TimeZone.
Variable now : Z.
Variable db : Backend.

Lemma skipn_length_app {A : Type} (l1 l2 : list A) : skipn (length l1) (l1 ++ l2) = l2.
Proof. induction l1; simpl; auto. Qed.

(** What the list loader sends, by where it stops. *)
Lemma sent_during_loadProperties (s : State) :
  sent_during (loadProperties LocalTZA now db) s =
  match fault db QProperties with
  | Some _ => [(QProperties, true)]
  | None =>
      match fault db (ownersQuery db) with
      | Some _ => [(QProperties, false); (ownersQuery db, true)]
      | None => [(QProperties, false); (ownersQuery db, false)]
                  ++ flat_map (requestsFor db) (tbl_properties db)
      end
  end.
Proof.
  unfold sent_during, run.
  destruct (fault db QProperties) as [e|] eqn:H1.
  - rewrite (loadProperties_properties_failed _ _ _ _ e H1). simpl. apply skipn_length_app.
  - destruct (fault db (ownersQuery db)) as [e|] eqn:H2.
    + rewrite (loadProperties_owners_failed _ _ _ _ e H1 H2). simpl. apply skipn_length_app.
    + rewrite (loadProperties_loaded _ _ _ _ H1 H2). simpl. apply skipn_length_app.
Qed.

(** The statistics loop sends neither of the loader's first two queries. *)
Lemma requestsFor_per_property (l : list PropertyRow.t) (q : Query) (b : bool) :
  In (q, b) (flat_map (requestsFor db) l) ->
  q <> QProperties /\ q <> ownersQuery db.
Proof.
  rewrite in_flat_map. intros (p & _ & H). unfold requestsFor, sent in H. simpl in H.
  unfold ownersQuery.
  repeat (destruct H as [H|H]; [injection H as <- _; split; discriminate |]).
  destruct H.
Qed.

End ListLoadClaims.

Section ListLoadTheorems.

Variable LocalTZA : TimeZone.
Variable now : Z.
Variable db : Backend.

(** How the list loader ends. When the properties query or the owner
    cross-reference query comes back with an error, the load aborts: the
    message 'Failed to load properties' is set, the loading flag is cleared,
    and the property list and the statistics map stay as they were before
    the load. When neither of the two fails, the load completes whatever the
    per-property queries answer: no message is set, the property list is
    shown, and statistics are stored for every property, a failed query
    counting as one without rows. *)
Lemma loadProperties_failure_handling (s : State) :
  let s' := run (loadProperties LocalTZA now db) s in
  let sent := sent_during (loadProperties LocalTZA now db) s in
  ((In (QProperties, true) sent \/ In (ownersQuery db, true) sent) ->
   error s' = Some "Failed to load properties"
   /\ isLoading s' = false
   /\ properties s' = properties s
   /\ propertyStats s' = propertyStats s)
  /\
  (~ In (QProperties, true) sent -> ~ In (ownersQuery db, true) sent ->
   error s' = None
   /\ isLoading s' = false
   /\ properties s' = loadedProperties db
   /\ propertyStats s' = allStats LocalTZA now db (tbl_properties db) ∅).
Proof.
  intros s' sent. subst s' sent. rewrite sent_during_loadProperties. unfold run.
  destruct (fault db QProperties) as [e|] eqn:H1.
  - rewrite (loadProperties_properties_failed _ _ _ _ e H1). simpl. split.
    + intros _. repeat split.
    + intros H. exfalso. apply H. now left.
  - destruct (fault db (ownersQuery db)) as [e|] eqn:H2.
    + rewrite (loadProperties_owners_failed _ _ _ _ e H1 H2). simpl. split.
      * intros _. repeat split.
      * intros _ H. exfalso. apply H. right. now left.
    + rewrite (loadProperties_loaded _ _ _ _ H1 H2). simpl. split.
      * intros [[H|[H|H]]|[H|[H|H]]]; try discriminate.
        -- apply requestsFor_per_property in H. now destruct H.
        -- apply requestsFor_per_property in H. now destruct H.
      * intros _ _. repeat split.
Qed.

Lemma find_selected_owner (o : string) (ids : list string) (l : list BackofficeUserRow.t) :
  In o ids ->
  List.find (fun u => String.eqb (BackofficeUser.user_id u) o)
    (List.map BackofficeUser.select (Supabase.in_filter BackofficeUserRow.user_id ids l))
  = option_map BackofficeUser.select
      (List.find (fun u => String.eqb (BackofficeUserRow.user_id u) o) l).
Proof.
  intros Hin. unfold Supabase.in_filter.
  induction l as [|r l IH]; simpl; [reflexivity |].
  destruct (String.eqb (BackofficeUserRow.user_id r) o) eqn:Ho.
  - assert (He : existsb (String.eqb (BackofficeUserRow.user_id r)) ids = true).
    { apply existsb_exists. exists o. split; [exact Hin | exact Ho]. }
    rewrite He. simpl. now rewrite Ho.
  - destruct (existsb _ ids); simpl; [rewrite Ho |]; exact IH.
Qed.

Lemma withOwner_owner_fields (row : PropertyRow.t) :
  In row (tbl_properties db) ->
  owner_fields db row
    (withOwner
       (Some (List.map BackofficeUser.select
                (Supabase.in_filter BackofficeUserRow.user_id
                   (List.map PropertyRow.owner_id (tbl_properties db))
                   (tbl_backoffice_users db))))
       row).
Proof.
  intros Hin. unfold owner_fields, withOwner, owner_of.
  rewrite find_selected_owner by (now apply in_map).
  destruct (List.find _ (tbl_backoffice_users db)) as [u|]; simpl.
  - split; [reflexivity |]. unfold or_unknown.
    destruct (BackofficeUserRow.role u); reflexivity.
  - now split.
Qed.

(** C10, amended. After a list load that set no error message, every listed
    property has owner_email 'Unknown'; its owner_name is the role of the
    first backoffice user whose user_id is the property's owner_id when that
    role is a non-empty string, and 'Unknown' when there is no such user or
    its role is empty. *)
Theorem loaded_owner_fields (s : State) :
  let s' := run (loadProperties LocalTZA now db) s in
  error s' = None ->
  Forall2 (owner_fields db) (tbl_properties db) (properties s').
Proof.
  intros s'. subst s'. unfold run.
  destruct (fault db QProperties) as [e|] eqn:H1.
  { rewrite (loadProperties_properties_failed _ _ _ _ e H1). discriminate. }
  destruct (fault db (ownersQuery db)) as [e|] eqn:H2.
  { rewrite (loadProperties_owners_failed _ _ _ _ e H1 H2). discriminate. }
  rewrite (loadProperties_loaded _ _ _ _ H1 H2). simpl. intros _.
  unfold loadedProperties, propertiesWithOwners. simpl.
  assert (H : forall l, (forall r, In r l -> In r (tbl_properties db)) ->
            Forall2 (owner_fields db) l
              (List.map (withOwner
                 (Some (List.map BackofficeUser.select
                   (Supabase.in_filter BackofficeUserRow.user_id
                      (List.map PropertyRow.owner_id (tbl_properties db))
                      (tbl_backoffice_users db))))) l)).
  { induction l as [|r l IH]; intros Hl; simpl; constructor.
    - apply withOwner_owner_fields. apply Hl. now left.
    - apply IH. intros r' Hr'. apply Hl. now right. }
  apply H. auto.
Qed.

End ListLoadTheorems.

(** C2, on the code: with the rooms query of the one property down, the
    list loader sends a query that comes back with an error and does not
    abort. It sets no error message, shows the property list, and stores
    statistics that count the property as having no rooms. *)
Theorem list_load_survives_rooms_failure :
  let db := Example.store "admin" Example.rooms_down in
  let s' := run (loadProperties Example.tz Example.now db) initialState in
  list_load_query_failed Example.tz Example.now db initialState
  /\ ~ list_load_aborted Example.tz Example.now db initialState
  /\ error s' = None
  /\ List.map PropertyDetails.id (properties s') = ["p1"]
  /\ PropertyStats.total_rooms <$> (propertyStats s' !! "p1") = Some 0%nat.
Proof.
  split; [| split; [| split; [| split]]].
  - exists (QRooms "p1"). vm_compute. right. right. left. reflexivity.
  - intros [H _]. vm_compute in H. discriminate.
  - reflexivity.
  - reflexivity.
  - vm_compute. reflexivity.
Qed.

Lemma loadProperties_failure_handling_witness :
  let db := Example.store "admin" Example.rooms_down in
  let s' := run (loadProperties Example.tz Example.now db) initialState in
  error s' = None
  /\ isLoading s' = false
  /\ properties s' = loadedProperties db
  /\ propertyStats s' = allStats Example.tz Example.now db (tbl_properties db) ∅.
Proof.
  apply (proj2 (loadProperties_failure_handling Example.tz Example.now
                  (Example.store "admin" Example.rooms_down) initialState)).
  - vm_compute. intros [H|[H|[H|[H|[H|[H|[H|[]]]]]]]]; discriminate.
  - vm_compute. intros [H|[H|[H|[H|[H|[H|[H|[]]]]]]]]; discriminate.
Defined.

(** C10, as written, fails: a matching backoffice user whose role is the
    empty string leaves owner_name 'Unknown', not that role. *)
Lemma empty_role_shows_unknown :
  let db := Example.store "" Example.no_fault in
  let s' := run (loadProperties Example.tz Example.now db) initialState in
  error s' = None
  /\ ~ Forall2 (owner_fields_as_claimed db) (tbl_properties db) (properties s').
Proof.
  split; [reflexivity |].
  intros H. vm_compute in H. inversion H as [|? ? ? ? [_ Hn] _]; subst.
  discriminate.
Qed.

Lemma loaded_owner_fields_witness :
  let db := Example.store "admin" Example.no_fault in
  Forall2 (owner_fields db) (tbl_properties db)
    (properties (run (loadProperties Example.tz Example.now db) initialState)).
Proof.
  apply (loaded_owner_fields Example.tz Example.now
           (Example.store "admin" Example.no_fault) initialState).
  reflexivity.
Defined.

(* ===================================================================== *)
(** ** The store's ordering *)
(* ===================================================================== *)

Section OrderDesc.

Context {A : Type} (key : A -> Z).

Lemma insert_desc_perm (x : A) (l : list A) :
  Permutation (Supabase.insert_desc key x l) (x :: l).
Proof.
  induction l as [|y l IH]; simpl; [reflexivity |].
  destruct (key y <? key x); [reflexivity |].
  rewrite IH. apply perm_swap.
Qed.

Lemma order_desc_perm (l : list A) : Permutation (Supabase.order_desc key l) l.
Proof.
  induction l as [|x l IH]; simpl; [reflexivity |].
  rewrite insert_desc_perm. now constructor.
Qed.

Lemma insert_desc_sorted (x : A) (l : list A) :
  StronglySorted (key_ge key) l -> StronglySorted (key_ge key) (Supabase.insert_desc key x l).
Proof.
  induction 1 as [|y l Hs IH Hy]; simpl.
  - repeat constructor.
  - destruct (key y <? key x) eqn:C.
    + apply Z.ltb_lt in C. constructor; [now constructor |].
      constructor; [unfold key_ge; lia |].
      rewrite List.Forall_forall in Hy |- *. intros z Hz.
      specialize (Hy z Hz). unfold key_ge in *. lia.
    + apply Z.ltb_ge in C. constructor; [exact IH |].
      rewrite List.Forall_forall. intros z Hz.
      apply (Permutation_in _ (insert_desc_perm x l)) in Hz.
      destruct Hz as [<- | Hz]; [exact C |].
      rewrite List.Forall_forall in Hy. now apply Hy.
Qed.

Lemma order_desc_sorted (l : list A) : StronglySorted (key_ge key) (Supabase.order_desc key l).
Proof.
  induction l as [|x l IH]; simpl; [constructor | now apply insert_desc_sorted].
Qed.

End OrderDesc.

Lemma StronglySorted_app_cross {A : Type} (R : A -> A -> Prop) (l1 l2 : list A) :
  StronglySorted R (l1 ++ l2) -> forall x y, In x l1 -> In y l2 -> R x y.
Proof.
  induction l1 as [|a l1 IH]; simpl; intros Hs x y Hx Hy; [destruct Hx |].
  inversion Hs as [|? ? Hs' Ha]; subst.
  destruct Hx as [<- | Hx].
  - rewrite List.Forall_forall in Ha. apply Ha. apply in_or_app. now right.
  - now apply IH.
Qed.

(* ===================================================================== *)
(** ** The detail loader, run *)
(* ===================================================================== *)

Section DetailLoad.

Variable db : Backend.
Variable propertyId : string.

(** An answer of the store carries rows exactly when it carries no error. *)
Lemma respond_data {A : Type} (q : Query) (rows : A) :
  failed (response (Supabase.respond db q rows)) = false ->
  Response.data (response (Supabase.respond db q rows)) = Some rows.
Proof.
  unfold Supabase.respond, failed. simpl. now destruct (fault db q).
Qed.

Lemma single_data :
  failed (response (Supabase.select_property_single db propertyId)) = false ->
  exists property users,
    Response.data (response (Supabase.select_property_single db propertyId)) = Some (property, users).
Proof.
  unfold Supabase.select_property_single, failed. simpl.
  destruct (fault db (QPropertySingle propertyId)); [discriminate |].
  destruct (Supabase.eq_filter _ _ _) as [|p [|p' l]]; simpl; try discriminate.
  intros _. eauto.
Qed.

(** The two ways the detail loader ends. *)
Lemma loadPropertyDetails_cases (s : State) :
  let s' := run (loadPropertyDetails db propertyId) s in
  (detail_query_failed db propertyId
   /\ selectedProperty s' = None
   /\ error s' = Some "Failed to load property details"
   /\ isLoading s' = false
   /\ showPropertyDetails s' = showPropertyDetails s)
  \/
  (~ detail_query_failed db propertyId
   /\ error s' = None
   /\ isLoading s' = false
   /\ showPropertyDetails s' = showPropertyDetails s
   /\ exists d,
       selectedProperty s' = Some d
       /\ PropertyDetails.stats d = propertyStats s !! propertyId
       /\ PropertyDetails.rooms d = Response.data (response (Supabase.select_rooms db propertyId))
       /\ PropertyDetails.tenants d = Response.data (response (Supabase.select_tenants db propertyId))
       /\ PropertyDetails.payments d =
          Some (Supabase.order_desc Payment.created_at (paymentsOf db propertyId))).
Proof.
  intros s'. subst s'. unfold detail_query_failed.
  pose proof single_data as H1.
  assert (H4 : failed (response (Supabase.select_payments_newest_first db propertyId)) = false ->
               Response.data (response (Supabase.select_payments_newest_first db propertyId)) =
               Some (Supabase.order_desc Payment.created_at (paymentsOf db propertyId)))
    by exact (respond_data _ _).
  unfold run, loadPropertyDetails, try_catch_finally, bind, await, throw_if_error, failed in *.
  remember (response (Supabase.select_property_single db propertyId)) as R1 eqn:E1.
  remember (response (Supabase.select_rooms db propertyId)) as R2 eqn:E2.
  remember (response (Supabase.select_tenants db propertyId)) as R3 eqn:E3.
  remember (response (Supabase.select_payments_newest_first db propertyId)) as R4 eqn:E4.
  clear E1 E2 E3 E4.
  destruct R1 as [d1 [e1|]]; simpl in *.
  { left. repeat split. now left. }
  destruct R2 as [d2 [e2|]]; simpl in *.
  { left. repeat split. right. now left. }
  destruct R3 as [d3 [e3|]]; simpl in *.
  { left. repeat split. right. right. now left. }
  destruct R4 as [d4 [e4|]]; simpl in *.
  { left. repeat split. right. right. right. reflexivity. }
  right. destruct (H1 eq_refl) as (property & users & ->). simpl.
  split; [intros [H|[H|[H|H]]]; discriminate |].
  repeat split. eexists. split; [reflexivity |]. simpl.
  rewrite (H4 eq_refl). repeat split.
Qed.

End DetailLoad.

Section DetailTheorems.

Variable db : Backend.
Variable propertyId : string.

Lemma handleViewDetails_run (s : State) :
  run (handleViewDetails db propertyId) s =
  run (loadPropertyDetails db propertyId)
    (mkState (properties s) (propertyStats s) (searchQuery s) (isLoading s)
       (error s) (Some propertyId) (selectedProperty s) (console s) (requests s)).
Proof. reflexivity. Qed.

(** C8. When one of the detail loader's four queries comes back with an
    error, the selected property becomes null, the message 'Failed to load
    property details' is set and the loading flag is cleared; this holds for
    the loader itself and for the click handler that calls it, after which
    no detail modal is rendered. *)
Theorem detail_load_failure (s : State) :
  detail_query_failed db propertyId ->
  let s1 := run (loadPropertyDetails db propertyId) s in
  let s2 := run (handleViewDetails db propertyId) s in
  (selectedProperty s1 = None
   /\ error s1 = Some "Failed to load property details"
   /\ isLoading s1 = false)
  /\
  (selectedProperty s2 = None
   /\ error s2 = Some "Failed to load property details"
   /\ isLoading s2 = false
   /\ modalShown s2 = None).
Proof.
  intros Hf s1 s2. subst s1 s2. rewrite handleViewDetails_run. split.
  - destruct (loadPropertyDetails_cases db propertyId s) as [H | [H _]]; [tauto | contradiction].
  - match goal with |- context [run _ ?s0] =>
      destruct (loadPropertyDetails_cases db propertyId s0) as [H | [H _]]
    end; [| contradiction].
    destruct H as (_ & Hsel & Herr & Hload & _). repeat split; try assumption.
    unfold modalShown. rewrite Hsel. destruct (showPropertyDetails _) as [pid|]; [| reflexivity].
    destruct (truthy pid); reflexivity.
Qed.

(** C7. The Recent Activity list of a loaded detail view holds at most five
    payments, and they are the most recent ones of the property: the list is
    the first five (or all, if fewer) of the property's payments in
    descending order of created_at, so no payment left out is newer than a
    payment shown. *)
Theorem recent_activity_newest_five (s : State) (selected : PropertyDetails.t) :
  selectedProperty (run (handleViewDetails db propertyId) s) = Some selected ->
  let shown := recentActivity selected in
  (length shown <= 5)%nat
  /\ length shown = Nat.min 5 (length (paymentsOf db propertyId))
  /\ exists rest,
       shown ++ rest = Supabase.order_desc Payment.created_at (paymentsOf db propertyId)
       /\ Permutation (shown ++ rest) (paymentsOf db propertyId)
       /\ StronglySorted newer_or_equal (shown ++ rest)
       /\ forall x y, In x shown -> In y rest -> newer_or_equal x y.
Proof.
  rewrite handleViewDetails_run.
  match goal with |- context [run _ ?s0] =>
    destruct (loadPropertyDetails_cases db propertyId s0)
      as [(_ & Hn & _) | (_ & _ & _ & _ & d & Hd & _ & _ & _ & Hp)]
  end.
  { rewrite Hn. discriminate. }
  rewrite Hd. intros E. injection E as <-. intros shown. subst shown.
  unfold recentActivity. rewrite Hp.
  set (all := Supabase.order_desc Payment.created_at (paymentsOf db propertyId)).
  assert (Hlen : length all = length (paymentsOf db propertyId)).
  { apply Permutation_length, order_desc_perm. }
  assert (Hsorted : StronglySorted newer_or_equal (firstn 5 all ++ skipn 5 all)).
  { rewrite firstn_skipn. apply (order_desc_sorted Payment.created_at). }
  split; [apply firstn_le_length |].
  split; [rewrite length_firstn, Hlen; reflexivity |].
  exists (skipn 5 all). split; [apply firstn_skipn |].
  split; [rewrite firstn_skipn; apply order_desc_perm |].
  split; [exact Hsorted |].
  now apply StronglySorted_app_cross.
Qed.

End DetailTheorems.

Lemma allStats_lookup_other (LocalTZA : TimeZone) (now : Z) (db : Backend)
    (l : list PropertyRow.t) (acc : gmap string PropertyStats.t) (k : string) :
  ~ In k (List.map PropertyRow.id l) ->
  allStats LocalTZA now db l acc !! k = acc !! k.
Proof.
  revert acc; induction l as [|p l IH]; intros acc Hk; simpl; [reflexivity |].
  simpl in Hk. unfold allStats in *. simpl. rewrite IH by tauto.
  apply lookup_insert_ne. tauto.
Qed.

Lemma allStats_lookup (LocalTZA : TimeZone) (now : Z) (db : Backend)
    (l : list PropertyRow.t) (acc : gmap string PropertyStats.t) (k : string) :
  In k (List.map PropertyRow.id l) ->
  allStats LocalTZA now db l acc !! k = Some (statsFor LocalTZA now db k).
Proof.
  revert acc; induction l as [|p l IH]; intros acc Hk; simpl in Hk; [contradiction |].
  unfold allStats in *. simpl.
  destruct (in_dec String.string_dec k (List.map PropertyRow.id l)) as [Hin | Hout].
  - now apply IH.
  - destruct Hk as [<- | Hk]; [| contradiction].
    pose proof (allStats_lookup_other LocalTZA now db l) as H. unfold allStats in H.
    rewrite H by exact Hout. apply lookup_insert_eq.
Qed.

(** C9. After a successful detail load the stats attached to the selected
    property are the entry the state's statistics map holds for that id.
    When that map comes from a list load that set no error message, the
    entry is the one that list load stored, and for a listed property it is
    the record computed then, from the store as it answered then, whatever
    the store answers at the time of the detail load. *)
Theorem detail_stats_reused (LocalTZA : TimeZone) (now : Z) (db db' : Backend) (s0 : State)
    (propertyId : string) (selected : PropertyDetails.t) :
  let s1 := run (loadProperties LocalTZA now db) s0 in
  let s2 := run (handleViewDetails db' propertyId) s1 in
  selectedProperty s2 = Some selected ->
  PropertyDetails.stats selected = propertyStats s1 !! propertyId
  /\ (error s1 = None ->
      PropertyDetails.stats selected =
      allStats LocalTZA now db (tbl_properties db) ∅ !! propertyId
      /\ (In propertyId (List.map PropertyRow.id (tbl_properties db)) ->
          PropertyDetails.stats selected = Some (statsFor LocalTZA now db propertyId))).
Proof.
  intros s1 s2. subst s2. rewrite handleViewDetails_run.
  match goal with |- context [run (loadPropertyDetails _ _) ?s] =>
    destruct (loadPropertyDetails_cases db' propertyId s)
      as [(_ & Hn & _) | (_ & _ & _ & _ & d & Hd & Hstats & _)]
  end.
  { rewrite Hn. discriminate. }
  rewrite Hd. intros E. injection E as <-. simpl in Hstats.
  split; [exact Hstats |].
  intros Hok. rewrite Hstats. subst s1. unfold run in *.
  destruct (fault db QProperties) as [e|] eqn:H1.
  { rewrite (loadProperties_properties_failed _ _ _ _ e H1) in Hok. discriminate. }
  destruct (fault db (ownersQuery db)) as [e|] eqn:H2.
  { rewrite (loadProperties_owners_failed _ _ _ _ e H1 H2) in Hok. discriminate. }
  rewrite (loadProperties_loaded _ _ _ _ H1 H2). simpl.
  split; [reflexivity |]. apply allStats_lookup.
Qed.

Lemma detail_load_failure_witness :
  let db := Example.store "admin" Example.tenants_down in
  let s2 := run (handleViewDetails db "p1") initialState in
  selectedProperty s2 = None
  /\ error s2 = Some "Failed to load property details"
  /\ isLoading s2 = false
  /\ modalShown s2 = None.
Proof.
  apply (proj2 (detail_load_failure (Example.store "admin" Example.tenants_down) "p1"
                  initialState (or_intror (or_intror (or_introl eq_refl))))).
Defined.

Lemma recent_activity_newest_five_witness :
  let db := Example.store "admin" Example.no_fault in
  exists selected,
    selectedProperty (run (handleViewDetails db "p1") initialState) = Some selected
    /\ (length (recentActivity selected) <= 5)%nat
    /\ length (recentActivity selected) = Nat.min 5 (length (paymentsOf db "p1")).
Proof.
  intros db.
  destruct (selectedProperty (run (handleViewDetails db "p1") initialState))
    as [selected|] eqn:E; [| vm_compute in E; discriminate].
  exists selected. split; [reflexivity |].
  destruct (recent_activity_newest_five db "p1" initialState selected E) as (H1 & H2 & _).
  split; [exact H1 | exact H2].
Defined.

Lemma detail_stats_reused_witness :
  let db := Example.store "admin" Example.no_fault in
  let s1 := run (loadProperties Example.tz Example.now db) initialState in
  exists selected,
    selectedProperty (run (handleViewDetails Example.store_later "p1") s1) = Some selected
    /\ PropertyDetails.stats selected = Some (statsFor Example.tz Example.now db "p1")
    /\ PropertyDetails.stats selected
       <> Some (statsFor Example.tz Example.now Example.store_later "p1").
Proof.
  intros db s1.
  destruct (selectedProperty (run (handleViewDetails Example.store_later "p1") s1))
    as [selected|] eqn:E; [| vm_compute in E; discriminate].
  exists selected. split; [reflexivity |].
  assert (Hstats : PropertyDetails.stats selected
                   = Some (statsFor Example.tz Example.now db "p1")).
  { apply (proj2 (detail_stats_reused Example.tz Example.now db Example.store_later
                    initialState "p1" selected E) eq_refl).
    simpl. now left. }
  split; [exact Hstats |].
  rewrite Hstats. vm_compute. discriminate.
Defined.

(* ===================================================================== *)
(** ** Numbers: rounding in binary64 *)
(* ===================================================================== *)

Section Rounding.

Lemma digits2_pos_size (p : positive) : digits2_pos p = Pos.size p.
Proof. induction p; simpl; congruence. Qed.

(** [Zdigits2] counts the binary digits: [2^(d-1) <= p < 2^d]. *)
Lemma digits2_pos_bounds (p : positive) :
  2 ^ (Zpos (digits2_pos p) - 1) <= Zpos p < 2 ^ Zpos (digits2_pos p).
Proof.
  rewrite digits2_pos_size. split.
  - pose proof (Pos.size_le p) as H.
    assert (H' : 2 ^ Zpos (Pos.size p) <= 2 * Zpos p).
    { change (2 * Zpos p) with (Zpos p~0). rewrite <- Pos2Z.inj_pow. exact H. }
    replace (Zpos (Pos.size p)) with (Z.succ (Zpos (Pos.size p) - 1)) in H' by lia.
    rewrite Z.pow_succ_r in H' by lia. lia.
  - pose proof (Pos.size_gt p) as H. rewrite <- Pos2Z.inj_pow. exact H.
Qed.

Lemma digits2_pos_unique (p : positive) (d : Z) :
  2 ^ (d - 1) <= Zpos p < 2 ^ d -> Zpos (digits2_pos p) = d.
Proof.
  intros [Hl Hu]. pose proof (digits2_pos_bounds p) as [Hl' Hu'].
  assert (0 < d).
  { destruct (Z.ltb_spec 0 d) as [|Hd]; [assumption |].
    assert (2 ^ d <= 2 ^ 0) by (apply Z.pow_le_mono_r; lia).
    change (2 ^ 0) with 1 in *. lia. }
  destruct (Z.lt_trichotomy (Zpos (digits2_pos p)) d) as [C | [C | C]]; [| exact C |].
  - assert (2 ^ Zpos (digits2_pos p) <= 2 ^ (d - 1)) by (apply Z.pow_le_mono_r; lia). lia.
  - assert (2 ^ d <= 2 ^ (Zpos (digits2_pos p) - 1)) by (apply Z.pow_le_mono_r; lia). lia.
Qed.

Lemma shr_1_m (mrs : shr_record) :
  0 <= shr_m mrs -> shr_m (shr_1 mrs) = shr_m mrs / 2.
Proof.
  destruct mrs as [m r s]. simpl. intros Hm.
  destruct m as [|[p|p|]|p]; simpl; try reflexivity; try lia.
  - rewrite Pos2Z.inj_xI. apply Z.div_unique with 1; lia.
  - rewrite Pos2Z.inj_xO. apply Z.div_unique with 0; lia.
Qed.

Lemma iter_pos_shr_1_m (n : positive) (mrs : shr_record) :
  0 <= shr_m mrs -> shr_m (SpecFloat.iter_pos shr_1 n mrs) = shr_m mrs / 2 ^ Zpos n.
Proof.
  revert mrs; induction n as [n IH | n IH |]; intros mrs Hm; simpl SpecFloat.iter_pos.
  - assert (H1 : 0 <= shr_m (shr_1 mrs)).
    { rewrite shr_1_m by assumption. apply Z.div_pos; lia. }
    assert (H2 : 0 <= shr_m (SpecFloat.iter_pos shr_1 n (shr_1 mrs))).
    { rewrite IH by assumption. apply Z.div_pos; [assumption | apply Z.pow_pos_nonneg; lia]. }
    rewrite IH, IH, shr_1_m by assumption.
    rewrite !Z.div_div by (try apply Z.pow_pos_nonneg; lia).
    f_equal. replace (Zpos n~1) with (1 + Zpos n + Zpos n) by lia.
    rewrite !Z.pow_add_r by lia. change (2 ^ 1) with 2. lia.
  - assert (H2 : 0 <= shr_m (SpecFloat.iter_pos shr_1 n mrs)).
    { rewrite IH by assumption. apply Z.div_pos; [assumption | apply Z.pow_pos_nonneg; lia]. }
    rewrite IH, IH by assumption.
    rewrite !Z.div_div by (try apply Z.pow_pos_nonneg; lia).
    f_equal. replace (Zpos n~0) with (Zpos n + Zpos n) by lia.
    rewrite !Z.pow_add_r by lia. lia.
  - rewrite shr_1_m by assumption. reflexivity.
Qed.

(** Shifting right by [n >= 0] digits divides the mantissa by [2^n]. *)
Lemma shr_m_div (mrs : shr_record) (e n : Z) :
  0 <= shr_m mrs -> 0 <= n ->
  shr_m (fst (shr mrs e n)) = shr_m mrs / 2 ^ n /\ snd (shr mrs e n) = e + n.
Proof.
  intros Hm Hn. destruct n as [|p|p]; simpl; [| | lia].
  - rewrite Z.div_1_r. split; [reflexivity | lia].
  - split; [now apply iter_pos_shr_1_m | reflexivity].
Qed.

Lemma shr_record_of_loc_m (m : Z) (l : location) : shr_m (shr_record_of_loc m l) = m.
Proof. destruct l as [|[]]; reflexivity. Qed.

Lemma round_nearest_even_cases (m : Z) (l : location) :
  round_nearest_even m l = m \/ round_nearest_even m l = m + 1.
Proof.
  destruct l as [|[]]; simpl; auto. destruct (Z.even m); auto.
Qed.

(** A mantissa of exactly 53 digits with an exponent in range is stored as
    it is. *)
Lemma binary_round_aux_exact (sx : bool) (m : positive) (e : Z) :
  Zpos (digits2_pos m) = 53 -> -1074 <= e <= 971 ->
  binary_round_aux prec emax sx (Zpos m) e loc_Exact = S754_finite sx m e.
Proof.
  intros Hd He. unfold binary_round_aux, shr_fexp, fexp, emin, prec, emax. simpl Zdigits2.
  rewrite Hd. replace (Z.max (53 + e - 53) (3 - 1024 - 53) - e) with 0 by lia.
  simpl. rewrite Hd.
  replace (Z.max (53 + e - 53) (3 - 1024 - 53) - e) with 0 by lia.
  simpl. change (1024 - 53) with 971. destruct (Z.leb_spec e 971); [reflexivity | lia].
Qed.

Lemma iter_xO_value (p k : positive) :
  Zpos (Pos.iter xO p k) = Zpos p * 2 ^ Zpos k.
Proof.
  induction k as [|k IH] using Pos.peano_ind.
  - simpl. lia.
  - rewrite Pos.iter_succ, Pos2Z.inj_xO, IH, Pos2Z.inj_succ, Z.pow_succ_r by lia. lia.
Qed.

(** An integer of at most 53 digits is a binary64 number, exactly: its
    mantissa is the integer shifted up to 53 digits. *)
Lemma of_Z_pos (p : positive) :
  Zpos (digits2_pos p) <= 53 ->
  exists m,
    of_Z (Zpos p) = S754_finite false m (Zpos (digits2_pos p) - 53)
    /\ Zpos m = Zpos p * 2 ^ (53 - Zpos (digits2_pos p))
    /\ Zpos (digits2_pos m) = 53.
Proof.
  intros Hd. pose proof (digits2_pos_bounds p) as Hb.
  unfold of_Z, binary_normalize, binary_round, shl_align, fexp, emin, prec, emax.
  replace (Z.max (Zpos (digits2_pos p) + 0 - 53) (3 - 1024 - 53) - 0)
    with (Zpos (digits2_pos p) - 53) by lia.
  replace (Z.max (Zpos (digits2_pos p) + 0 - 53) (3 - 1024 - 53))
    with (Zpos (digits2_pos p) - 53) by lia.
  destruct (Zpos (digits2_pos p) - 53) as [|k|k] eqn:Hk; [| lia |].
  - assert (E : Zpos (digits2_pos p) = 53) by lia.
    exists p. rewrite E. change (53 - 53) with 0.
    split; [| split; [lia | reflexivity]].
    apply (binary_round_aux_exact false p 0 E). lia.
  - assert (E : 53 - Zpos (digits2_pos p) = Zpos k) by lia.
    assert (Hm : Zpos (Pos.iter xO p k) = Zpos p * 2 ^ Zpos k) by apply iter_xO_value.
    assert (Hdm : Zpos (digits2_pos (Pos.iter xO p k)) = 53).
    { apply digits2_pos_unique. rewrite Hm.
      assert (E1 : 2 ^ (53 - 1) = 2 ^ (Zpos (digits2_pos p) - 1) * 2 ^ Zpos k).
      { rewrite <- Z.pow_add_r by lia. f_equal. lia. }
      assert (E2 : 2 ^ 53 = 2 ^ Zpos (digits2_pos p) * 2 ^ Zpos k).
      { rewrite <- Z.pow_add_r by lia. f_equal. lia. }
      rewrite E1, E2.
      assert (0 < 2 ^ Zpos k) by (apply Z.pow_pos_nonneg; lia). nia. }
    exists (Pos.iter xO p k). rewrite E.
    split; [| split; [exact Hm | exact Hdm]].
    apply (binary_round_aux_exact false _ _ Hdm). lia.
Qed.

(** Rounding a mantissa of at least 53 digits: the stored number is the
    mantissa cut down to 53 digits, or its successor. *)
Lemma binary_round_aux_bracket (sx : bool) (m : positive) (e : Z) (l : location) :
  let n := Zpos (digits2_pos m) - 53 in
  0 <= n -> -1074 <= e + n -> e + n + 1 <= 971 ->
  exists m' e' m2,
    binary_round_aux prec emax sx (Zpos m) e l = S754_finite sx m' e'
    /\ Zpos (digits2_pos m') = 53
    /\ (m2 = Zpos m / 2 ^ n \/ m2 = Zpos m / 2 ^ n + 1)
    /\ 2 ^ 52 <= Zpos m / 2 ^ n < 2 ^ 53
    /\ ((Zpos m' = m2 /\ e' = e + n) \/ (m2 = 2 ^ 53 /\ Zpos m' = 2 ^ 52 /\ e' = e + n + 1)).
Proof.
  intros n Hn He1 He2. pose proof (digits2_pos_bounds m) as Hb.
  assert (Hp : 0 < 2 ^ n) by (apply Z.pow_pos_nonneg; lia).
  assert (Hm1 : 2 ^ 52 <= Zpos m / 2 ^ n < 2 ^ 53).
  { assert (E1 : 2 ^ (Zpos (digits2_pos m) - 1) = 2 ^ 52 * 2 ^ n).
    { rewrite <- Z.pow_add_r by lia. f_equal. lia. }
    assert (E2 : 2 ^ Zpos (digits2_pos m) = 2 ^ 53 * 2 ^ n).
    { rewrite <- Z.pow_add_r by lia. f_equal. lia. }
    rewrite E1, E2 in Hb. split.
    - apply Z.div_le_lower_bound; lia.
    - apply Z.div_lt_upper_bound; lia. }
  unfold binary_round_aux, shr_fexp, fexp, emin, prec, emax. simpl Zdigits2.
  replace (Z.max (Zpos (digits2_pos m) + e - 53) (3 - 1024 - 53) - e) with n by lia.
  destruct (shr_m_div (shr_record_of_loc (Zpos m) l) e n) as [Hs1 Hs2];
    [rewrite shr_record_of_loc_m; lia | lia |].
  rewrite shr_record_of_loc_m in Hs1.
  destruct (shr (shr_record_of_loc (Zpos m) l) e n) as [mrs1 e1]. simpl in Hs1, Hs2. subst e1.
  set (m2 := round_nearest_even (shr_m mrs1) (loc_of_shr_record mrs1)).
  assert (Hm2 : m2 = Zpos m / 2 ^ n \/ m2 = Zpos m / 2 ^ n + 1).
  { rewrite <- Hs1. apply round_nearest_even_cases. }
  assert (Hr : 2 ^ 52 <= m2 <= 2 ^ 53) by lia.
  destruct m2 as [|p2|p2] eqn:Ep2; [lia | | lia].
  simpl Zdigits2.
  destruct (Z.eq_dec (Zpos p2) (2 ^ 53)) as [Etop | Ntop].
  - (* the successor carried into a 54th digit *)
    assert (Hd2 : Zpos (digits2_pos p2) = 54).
    { apply digits2_pos_unique. rewrite Etop. change (54 - 1) with 53.
      split; [lia | apply Z.pow_lt_mono_r; lia]. }
    rewrite Hd2. replace (Z.max (54 + (e + n) - 53) (3 - 1024 - 53) - (e + n)) with 1 by lia.
    injection Etop as ->. simpl.
    change (1024 - 53) with 971. destruct (Z.leb_spec (e + n + 1) 971); [| lia].
    eexists _, _, (2 ^ 53). split; [reflexivity |].
    split; [reflexivity |].
    split; [rewrite <- Ep2 in *; lia |]. split; [exact Hm1 |]. right. now repeat split.
  - assert (Hd2 : Zpos (digits2_pos p2) = 53).
    { apply digits2_pos_unique. change (53 - 1) with 52. lia. }
    rewrite Hd2. replace (Z.max (53 + (e + n) - 53) (3 - 1024 - 53) - (e + n)) with 0 by lia.
    simpl. change (1024 - 53) with 971. destruct (Z.leb_spec (e + n) 971); [| lia].
    exists p2, (e + n), (Zpos p2). split; [reflexivity |].
    split; [exact Hd2 |].
    split; [exact Hm2 |]. split; [exact Hm1 |]. left. now split.
Qed.

(** The quotient of two 53-digit mantissas. *)
Lemma div_bracket (ma mb : positive) (ea eb : Z) :
  Zpos (digits2_pos ma) = 53 -> Zpos (digits2_pos mb) = 53 ->
  -1000 <= ea - eb <= 900 ->
  exists m' e' m2 n,
    div (S754_finite false ma ea) (S754_finite false mb eb) = S754_finite false m' e'
    /\ Zpos (digits2_pos m') = 53
    /\ 0 <= n <= 1
    /\ (m2 = Zpos ma * 2 ^ 53 / (Zpos mb * 2 ^ n)
        \/ m2 = Zpos ma * 2 ^ 53 / (Zpos mb * 2 ^ n) + 1)
    /\ 2 ^ 52 <= Zpos ma * 2 ^ 53 / (Zpos mb * 2 ^ n) < 2 ^ 53
    /\ ((Zpos m' = m2 /\ e' = ea - eb - 53 + n)
        \/ (m2 = 2 ^ 53 /\ Zpos m' = 2 ^ 52 /\ e' = ea - eb - 53 + n + 1)).
Proof.
  intros Ha Hb He.
  pose proof (digits2_pos_bounds ma) as Ba. pose proof (digits2_pos_bounds mb) as Bb.
  rewrite Ha in Ba. rewrite Hb in Bb. change (53 - 1) with 52 in *.
  unfold div, SFdiv, SFdiv_core_binary, fexp, emin, prec, emax. simpl Zdigits2.
  rewrite Ha, Hb.
  replace (Z.min (Z.max (53 + ea - (53 + eb) - 53) (3 - 1024 - 53)) (ea - eb))
    with (ea - eb - 53) by lia.
  replace (ea - eb - (ea - eb - 53)) with 53 by lia.
  rewrite Z.shiftl_mul_pow2 by lia.
  pose proof (Z_div_mod (Zpos ma * 2 ^ 53) (Zpos mb) ltac:(lia)) as Hdm.
  destruct (Z.div_eucl (Zpos ma * 2 ^ 53) (Zpos mb)) as [q r] eqn:Eq.
  assert (Hq : q = Zpos ma * 2 ^ 53 / Zpos mb) by (unfold Z.div; now rewrite Eq).
  assert (Hq1 : 2 ^ 52 <= q) by (rewrite Hq; apply Z.div_le_lower_bound; lia).
  assert (Hq2 : q < 2 ^ 54).
  { rewrite Hq. apply Z.div_lt_upper_bound; [lia |].
    change (2 ^ 54) with (2 ^ 53 * 2). change (2 ^ 53) with (2 ^ 52 * 2) at 1. nia. }
  destruct q as [|pq|pq]; [lia | | lia].
  pose proof (digits2_pos_bounds pq) as Bq.
  assert (Hn : 53 <= Zpos (digits2_pos pq) <= 54).
  { split.
    - destruct (Z.le_gt_cases 53 (Zpos (digits2_pos pq))) as [|C]; [assumption |].
      assert (2 ^ Zpos (digits2_pos pq) <= 2 ^ 52) by (apply Z.pow_le_mono_r; lia). lia.
    - destruct (Z.le_gt_cases (Zpos (digits2_pos pq)) 54) as [|C]; [assumption |].
      assert (2 ^ 54 <= 2 ^ (Zpos (digits2_pos pq) - 1)) by (apply Z.pow_le_mono_r; lia). lia. }
  destruct (binary_round_aux_bracket false pq (ea - eb - 53) (new_location (Zpos mb) r))
    as (m' & e' & m2 & Hres & Hd' & Hm2 & Hm1 & Hcase); [lia | lia | lia |].
  set (n := Zpos (digits2_pos pq) - 53) in *.
  assert (Hdd : Zpos pq / 2 ^ n = Zpos ma * 2 ^ 53 / (Zpos mb * 2 ^ n)).
  { rewrite Hq. apply Z.div_div; [lia | apply Z.pow_pos_nonneg; lia]. }
  rewrite Hdd in *.
  unfold prec, emax in Hres.
  exists m', e', m2, n. simpl xorb. rewrite Hres.
  split; [reflexivity |]. split; [exact Hd' |]. split; [lia |].
  split; [exact Hm2 |]. split; [exact Hm1 |]. exact Hcase.
Qed.

(** The product of two 53-digit mantissas. *)
Lemma mul_bracket (ma mb : positive) (ea eb : Z) :
  Zpos (digits2_pos ma) = 53 -> Zpos (digits2_pos mb) = 53 ->
  -1000 <= ea + eb <= 800 ->
  exists m' e' m2 n,
    mul (S754_finite false ma ea) (S754_finite false mb eb) = S754_finite false m' e'
    /\ Zpos (digits2_pos m') = 53
    /\ 52 <= n <= 53
    /\ (m2 = Zpos ma * Zpos mb / 2 ^ n \/ m2 = Zpos ma * Zpos mb / 2 ^ n + 1)
    /\ 2 ^ 52 <= Zpos ma * Zpos mb / 2 ^ n < 2 ^ 53
    /\ ((Zpos m' = m2 /\ e' = ea + eb + n)
        \/ (m2 = 2 ^ 53 /\ Zpos m' = 2 ^ 52 /\ e' = ea + eb + n + 1)).
Proof.
  intros Ha Hb He.
  pose proof (digits2_pos_bounds ma) as Ba. pose proof (digits2_pos_bounds mb) as Bb.
  rewrite Ha in Ba. rewrite Hb in Bb. change (53 - 1) with 52 in *.
  unfold mul, SFmul. simpl xorb.
  pose proof (digits2_pos_bounds (ma * mb)) as Bp. rewrite Pos2Z.inj_mul in Bp.
  assert (H104 : 2 ^ 104 <= Zpos ma * Zpos mb) by (change (2 ^ 104) with (2 ^ 52 * 2 ^ 52); nia).
  assert (H106 : Zpos ma * Zpos mb < 2 ^ 106) by (change (2 ^ 106) with (2 ^ 53 * 2 ^ 53); nia).
  assert (Hn : 105 <= Zpos (digits2_pos (ma * mb)) <= 106).
  { split.
    - destruct (Z.le_gt_cases 105 (Zpos (digits2_pos (ma * mb)))) as [|C]; [assumption |].
      assert (2 ^ Zpos (digits2_pos (ma * mb)) <= 2 ^ 104) by (apply Z.pow_le_mono_r; lia). lia.
    - destruct (Z.le_gt_cases (Zpos (digits2_pos (ma * mb))) 106) as [|C]; [assumption |].
      assert (2 ^ 106 <= 2 ^ (Zpos (digits2_pos (ma * mb)) - 1))
        by (apply Z.pow_le_mono_r; lia). lia. }
  destruct (binary_round_aux_bracket false (ma * mb) (ea + eb) loc_Exact)
    as (m' & e' & m2 & Hres & Hd' & Hm2 & Hm1 & Hcase); [lia | lia | lia |].
  rewrite Pos2Z.inj_mul in Hm2, Hm1.
  exists m', e', m2, (Zpos (digits2_pos (ma * mb)) - 53). rewrite Hres.
  split; [reflexivity |]. split; [exact Hd' |]. split; [lia |].
  split; [exact Hm2 |]. split; [exact Hm1 |]. exact Hcase.
Qed.

Lemma digits2_pos_le (p : positive) (k : Z) :
  Zpos p < 2 ^ k -> Zpos (digits2_pos p) <= k.
Proof.
  intros H. pose proof (digits2_pos_bounds p) as [Hl _].
  destruct (Z.le_gt_cases (Zpos (digits2_pos p)) k) as [|C]; [assumption |].
  assert (2 ^ k <= 2 ^ (Zpos (digits2_pos p) - 1)) by (apply Z.pow_le_mono_r; lia). lia.
Qed.

Lemma pow2_split (x y z : Z) : 0 <= y -> 0 <= z -> x = y + z -> 2 ^ x = 2 ^ y * 2 ^ z.
Proof. intros Hy Hz ->. now apply Z.pow_add_r. Qed.

(** The quotient of two array lengths, as a binary64 number [m' * 2^e']:
    it is within one unit in the last place of the exact quotient. *)
Lemma div_of_Z_bracket (pa pb : positive) :
  Zpos pa <= Zpos pb -> Zpos pb < 2 ^ 32 ->
  exists m' e',
    div (of_Z (Zpos pa)) (of_Z (Zpos pb)) = S754_finite false m' e'
    /\ Zpos (digits2_pos m') = 53
    /\ -90 <= e' <= -20
    /\ (Zpos m' - 1) * Zpos pb <= Zpos pa * 2 ^ (- e') <= (Zpos m' + 1) * Zpos pb.
Proof.
  intros Hab Hb.
  assert (Hda : Zpos (digits2_pos pa) <= 32) by (apply digits2_pos_le; lia).
  assert (Hdb : Zpos (digits2_pos pb) <= 32) by (apply digits2_pos_le; lia).
  destruct (of_Z_pos pa) as (ma & Ea & Hma & Dma); [lia |].
  destruct (of_Z_pos pb) as (mb & Eb & Hmb & Dmb); [lia |].
  rewrite Ea, Eb.
  set (ka := 53 - Zpos (digits2_pos pa)) in *.
  set (kb := 53 - Zpos (digits2_pos pb)) in *.
  replace (Zpos (digits2_pos pa) - 53) with (- ka) by (unfold ka; lia).
  replace (Zpos (digits2_pos pb) - 53) with (- kb) by (unfold kb; lia).
  assert (Hka : 21 <= ka <= 52) by (unfold ka; lia).
  assert (Hkb : 21 <= kb <= 52) by (unfold kb; lia).
  destruct (div_bracket ma mb (- ka) (- kb) Dma Dmb) as
    (m' & e' & m2 & n & Hres & Hd' & Hn & Hm2 & Hm1 & Hcase); [lia |].
  pose proof (digits2_pos_bounds m') as Bm'. rewrite Hd' in Bm'. change (53 - 1) with 52 in Bm'.
  set (D := Zpos mb * 2 ^ n) in *. set (N := Zpos ma * 2 ^ 53) in *.
  assert (HD : 0 < D) by (unfold D; assert (0 < 2 ^ n) by (apply Z.pow_pos_nonneg; lia); nia).
  assert (Hfl : N / D * D <= N < (N / D + 1) * D).
  { pose proof (Z.mul_div_le N D HD). pose proof (Z.mul_succ_div_gt N D HD). lia. }
  set (m1 := N / D) in *.
  (* common scale: N = a * G * W and D = b * W *)
  set (g := ka + 53 - kb - n).
  assert (Hg : 20 <= g <= 90) by (unfold g; lia).
  set (W := 2 ^ (kb + n)).
  assert (HW : 0 < W) by (apply Z.pow_pos_nonneg; lia).
  assert (HG : 0 < 2 ^ g) by (apply Z.pow_pos_nonneg; lia).
  assert (EN : N = Zpos pa * 2 ^ g * W).
  { unfold N, W. rewrite Hma. fold ka.
    rewrite <- !Z.mul_assoc, <- !Z.pow_add_r by lia. do 2 f_equal. unfold g. lia. }
  assert (ED : D = Zpos pb * W).
  { unfold D, W. rewrite Hmb. fold kb. rewrite <- Z.mul_assoc, <- Z.pow_add_r by lia.
    reflexivity. }
  assert (HA : m1 * Zpos pb <= Zpos pa * 2 ^ g < (m1 + 1) * Zpos pb).
  { rewrite EN, ED in Hfl. split; nia. }
  exists m', e'. split; [exact Hres |]. split; [exact Hd' |].
  destruct Hcase as [[Em' Ee'] | (Etop & Em' & Ee')].
  - assert (Eg : - e' = g) by (unfold g; lia). rewrite Eg.
    split; [lia |]. rewrite Em'. destruct Hm2 as [-> | ->]; nia.
  - assert (Eg : g = - e' + 1) by (unfold g; lia).
    assert (E2 : 2 ^ g = 2 ^ (- e') * 2) by (apply (pow2_split g (- e') 1); lia).
    split; [lia |]. rewrite E2 in HA. rewrite Em'.
    assert (Hm1' : m1 = 2 ^ 53 - 1) by lia. rewrite Hm1' in HA.
    change (2 ^ 53) with (2 * 2 ^ 52) in HA. nia.
Qed.

Lemma hundred_finite : hundred = S754_finite false 7036874417766400 (-46).
Proof. reflexivity. Qed.

(** [Math.round(x * 100)] for a binary64 [x = m * 2^e] below [2^-19]
    times [2^53]: the product rounds to some [m2 / 2^t], within one unit
    in the last place of [100 * x], and the result is [floor(m2/2^t + 1/2)]. *)
Lemma round_mul_hundred (m : positive) (e : Z) :
  Zpos (digits2_pos m) = 53 -> -90 <= e <= -20 ->
  exists r m2 t,
    Math_round (mul (S754_finite false m e) hundred) = of_Z r
    /\ 2 ^ 52 <= m2
    /\ 0 < t
    /\ (m2 - 1) * 2 ^ (- e) <= 100 * Zpos m * 2 ^ t <= (m2 + 1) * 2 ^ (- e)
    /\ 2 * r * 2 ^ t <= 2 * m2 + 2 ^ t < 2 * (r + 1) * 2 ^ t.
Proof.
  intros Hd He. rewrite hundred_finite.
  destruct (mul_bracket m 7036874417766400 e (-46) Hd eq_refl) as
    (m5 & e5 & m2 & n & Hres & Hd5 & Hn & Hm2 & Hm1 & Hcase); [lia |].
  rewrite Hres.
  set (P := Zpos m * 7036874417766400) in *.
  assert (Hpn : 0 < 2 ^ n) by (apply Z.pow_pos_nonneg; lia).
  assert (Hfl : P / 2 ^ n * 2 ^ n <= P < (P / 2 ^ n + 1) * 2 ^ n).
  { pose proof (Z.mul_div_le P _ Hpn). pose proof (Z.mul_succ_div_gt P _ Hpn). lia. }
  set (m1 := P / 2 ^ n) in *.
  set (t := - e + 46 - n).
  assert (Ht : 13 <= t <= 90) by (unfold t; lia).
  assert (HT : 0 < 2 ^ t) by (apply Z.pow_pos_nonneg; lia).
  assert (HG : 0 < 2 ^ (- e)) by (apply Z.pow_pos_nonneg; lia).
  assert (Escale : 2 ^ t * 2 ^ n = 2 ^ (- e) * 2 ^ 46).
  { rewrite <- !Z.pow_add_r by lia. f_equal. unfold t. lia. }
  assert (EP : P = 100 * Zpos m * 2 ^ 46).
  { unfold P. change 7036874417766400 with (100 * 2 ^ 46). lia. }
  assert (HC : m1 * 2 ^ (- e) <= 100 * Zpos m * 2 ^ t < (m1 + 1) * 2 ^ (- e)).
  { assert (H46 : 0 < 2 ^ 46) by reflexivity.
    assert (X1 : m1 * (2 ^ t * 2 ^ n) <= P * 2 ^ t) by nia.
    assert (X2 : P * 2 ^ t < (m1 + 1) * (2 ^ t * 2 ^ n)) by nia.
    rewrite Escale, EP in X1, X2.
    set (c := 2 ^ 46) in *. clearbody c. split.
    - apply (Z.mul_le_mono_pos_r _ _ c H46). lia.
    - apply (Z.mul_lt_mono_pos_r c _ _ H46). lia. }
  assert (Hr : forall m5' e5' h, 0 < h -> e5' < 0 -> 2 ^ (- e5') = 2 * h ->
            Math_round (S754_finite false m5' e5') = of_Z ((Zpos m5' + h) / (2 * h))
            /\ 2 ^ (- e5' - 1) = h).
  { intros m5' e5' h Hh He5 E2.
    assert (Eh : 2 ^ (- e5' - 1) = h).
    { assert (X : 2 ^ (- e5') = 2 ^ (- e5' - 1) * 2)
        by (apply (pow2_split _ (- e5' - 1) 1); lia). lia. }
    split; [| exact Eh].
    unfold Math_round. destruct (Z.leb_spec 0 e5') as [|_]; [lia |].
    rewrite Z.shiftl_mul_pow2, Z.shiftr_div_pow2 by lia.
    rewrite Z.mul_1_l, Eh, E2.
    destruct (Z.eqb_spec ((Zpos m5' + h) / (2 * h)) 0) as [-> | _]; reflexivity. }
  set (h := 2 ^ (t - 1)).
  assert (Hh : 0 < h) by (apply Z.pow_pos_nonneg; lia).
  assert (ET : 2 ^ t = 2 * h).
  { unfold h. rewrite (pow2_split t (t - 1) 1) by lia. change (2 ^ 1) with 2. lia. }
  destruct Hcase as [[Em5 Ee5] | (Etop & Em5 & Ee5)].
  - destruct (Hr m5 e5 h Hh) as [Hround _]; [lia | |].
    { replace (- e5) with t by (unfold t; lia). exact ET. }
    pose proof (Z.mul_div_le (Zpos m5 + h) (2 * h) ltac:(lia)) as F1.
    pose proof (Z.mul_succ_div_gt (Zpos m5 + h) (2 * h) ltac:(lia)) as F2.
    exists ((Zpos m5 + h) / (2 * h)), m2, t.
    split; [exact Hround |]. split; [lia |]. split; [lia |].
    split; [destruct Hm2 as [-> | ->]; nia |].
    rewrite ET, <- Em5. set (q := (Zpos m5 + h) / (2 * h)) in *. lia.
  - set (h' := 2 ^ (t - 2)).
    assert (Hh' : 0 < h') by (apply Z.pow_pos_nonneg; lia).
    assert (Eh : h = 2 * h').
    { unfold h, h'. rewrite (pow2_split (t - 1) (t - 2) 1) by lia. change (2 ^ 1) with 2. lia. }
    destruct (Hr m5 e5 h' Hh') as [Hround _]; [lia | |].
    { replace (- e5) with (t - 1) by (unfold t; lia). exact Eh. }
    pose proof (Z.mul_div_le (Zpos m5 + h') (2 * h') ltac:(lia)) as F1.
    pose proof (Z.mul_succ_div_gt (Zpos m5 + h') (2 * h') ltac:(lia)) as F2.
    exists ((Zpos m5 + h') / (2 * h')), m2, t.
    split; [exact Hround |]. split; [lia |]. split; [lia |].
    split; [destruct Hm2 as [-> | ->]; nia |].
    rewrite ET, Eh, Etop. rewrite Em5 in F1, F2 |- *.
    change (2 ^ 53) with (2 * 2 ^ 52).
    set (c := 2 ^ 52) in *. set (q := (c + h') / (2 * h')) in *. lia.
Qed.

Lemma nearest_percent_arith (a b m m2 r G T : Z) :
  1 <= a <= b -> b < 2 ^ 32 ->
  2 ^ 52 <= m < 2 ^ 53 -> 2 ^ 52 <= m2 ->
  0 < G -> 0 < T ->
  (m - 1) * b <= a * G <= (m + 1) * b ->
  (m2 - 1) * G <= 100 * m * T <= (m2 + 1) * G ->
  2 * r * T <= 2 * m2 + T < 2 * (r + 1) * T ->
  200 * a - b <= 2 * b * r <= 200 * a + b.
Proof.
  intros Hab Hb Hm Hm2 HG HT HA HC HE.
  change (2 ^ 32) with 4294967296 in *.
  change (2 ^ 52) with 4503599627370496 in *.
  change (2 ^ 53) with 9007199254740992 in *.
  assert (HG1 : 4503599627370495 <= G) by nia.
  assert (HT1 : 4503599627370495 * G <= 100 * 9007199254740992 * T) by nia.
  assert (HT2 : 4 * b < T) by nia.
  assert (HG2 : 400 * b < G) by nia.
  assert (Hsmall : 200 * b * T + 2 * b * G < T * G) by nia.
  assert (U1 : 2 * r * T * (b * G) <= (2 * m2 + T) * (b * G))
    by (apply Z.mul_le_mono_nonneg_r; [apply Z.mul_nonneg_nonneg; lia | lia]).
  assert (U2 : m2 * G <= 100 * m * T + G) by lia.
  assert (U3 : m * b <= a * G + b) by lia.
  assert (L1 : (2 * m2 + T) * (b * G) < 2 * (r + 1) * T * (b * G))
    by (apply Z.mul_lt_mono_pos_r; [apply Z.mul_pos_pos; lia | lia]).
  assert (L2 : 100 * m * T - G <= m2 * G) by lia.
  assert (L3 : a * G - b <= m * b) by lia.
  split.
  - destruct (Z.le_gt_cases (200 * a - b) (2 * b * r)) as [|C]; [assumption | exfalso].
    assert (C' : 2 * b * r + 1 <= 200 * a - b) by lia.
    assert (X1 : 2 * b * (100 * m * T - G) <= 2 * b * (m2 * G))
      by (apply Z.mul_le_mono_nonneg_l; lia).
    assert (X2 : 200 * T * (a * G - b) <= 200 * T * (m * b))
      by (apply Z.mul_le_mono_nonneg_l; lia).
    assert (X3 : (2 * b * r + 1) * (T * G) <= (200 * a - b) * (T * G))
      by (apply Z.mul_le_mono_nonneg_r; [apply Z.mul_nonneg_nonneg; lia | lia]).
    lia.
  - destruct (Z.le_gt_cases (2 * b * r) (200 * a + b)) as [|C]; [assumption | exfalso].
    assert (C' : 200 * a + b + 1 <= 2 * b * r) by lia.
    assert (X1 : 2 * b * (m2 * G) <= 2 * b * (100 * m * T + G))
      by (apply Z.mul_le_mono_nonneg_l; lia).
    assert (X2 : 200 * T * (m * b) <= 200 * T * (a * G + b))
      by (apply Z.mul_le_mono_nonneg_l; lia).
    assert (X3 : (200 * a + b + 1) * (T * G) <= (2 * b * r) * (T * G))
      by (apply Z.mul_le_mono_nonneg_r; [apply Z.mul_nonneg_nonneg; lia | lia]).
    lia.
Qed.

(** The percentage [Math.round((a / b) * 100)] of two array lengths is an
    integer nearest to the exact [100 * a / b]. *)
Lemma percent_nearest (a b : Z) :
  0 <= a <= b -> 0 < b < 2 ^ 32 ->
  exists r,
    Math_round (mul (div (of_Z a) (of_Z b)) hundred) = of_Z r
    /\ 200 * a - b <= 2 * b * r <= 200 * a + b.
Proof.
  intros Ha Hb. destruct b as [|pb|pb]; [lia | | lia].
  destruct a as [|pa|pa]; [| | lia].
  - assert (Hdb : Zpos (digits2_pos pb) <= 32) by (apply digits2_pos_le; lia).
    destruct (of_Z_pos pb) as (mb & Eb & _); [lia |].
    rewrite Eb. exists 0. split; [reflexivity | lia].
  - destruct (div_of_Z_bracket pa pb) as (m' & e' & Hdiv & Hd' & He' & HA); [lia | lia |].
    rewrite Hdiv.
    destruct (round_mul_hundred m' e' Hd' He') as (r & m2 & t & Hround & Hm2 & Ht & HC & HE).
    exists r. split; [exact Hround |].
    pose proof (digits2_pos_bounds m') as Bm'. rewrite Hd' in Bm'. change (53 - 1) with 52 in Bm'.
    apply (nearest_percent_arith (Zpos pa) (Zpos pb) (Zpos m') m2 r (2 ^ (- e')) (2 ^ t));
      try assumption; try lia; apply Z.pow_pos_nonneg; lia.
Qed.

(** *** Sums of array lengths are exact *)

(** Shifting out zeros loses nothing: the record stays exact. *)
Lemma iter_shr_1_exact (k : positive) (q : Z) :
  0 < q ->
  SpecFloat.iter_pos shr_1 k (Build_shr_record (q * 2 ^ Zpos k) false false)
  = Build_shr_record q false false.
Proof.
  assert (Hone : forall q, 0 < q ->
            shr_1 (Build_shr_record (q * 2) false false) = Build_shr_record q false false).
  { intros [|p|p] Hp; try lia. replace (Zpos p * 2) with (Zpos p~0) by lia. reflexivity. }
  revert q; induction k as [k IH | k IH |]; intros q Hq; cbn [SpecFloat.iter_pos].
  - assert (Hp : 0 < 2 ^ Zpos k) by (apply Z.pow_pos_nonneg; lia).
    replace (q * 2 ^ Zpos k~1) with (q * 2 ^ Zpos k * 2 ^ Zpos k * 2).
    + rewrite Hone by nia. rewrite IH by nia. now apply IH.
    + replace (Zpos k~1) with (Zpos k + Zpos k + 1) by lia.
      rewrite !Z.pow_add_r by lia. change (2 ^ 1) with 2. lia.
  - assert (Hp : 0 < 2 ^ Zpos k) by (apply Z.pow_pos_nonneg; lia).
    replace (q * 2 ^ Zpos k~0) with (q * 2 ^ Zpos k * 2 ^ Zpos k).
    + rewrite IH by nia. now apply IH.
    + replace (Zpos k~0) with (Zpos k + Zpos k) by lia.
      rewrite !Z.pow_add_r by lia. lia.
  - change (2 ^ 1) with 2. now apply Hone.
Qed.

(** A 53-digit mantissa followed by [k] zeros is stored as it is. *)
Lemma binary_round_aux_exact_shift (sx : bool) (q : positive) (k e : Z) (m : positive) :
  Zpos (digits2_pos q) = 53 -> 0 <= k -> -1074 <= e + k <= 971 ->
  Zpos m = Zpos q * 2 ^ k ->
  binary_round_aux prec emax sx (Zpos m) e loc_Exact = S754_finite sx q (e + k).
Proof.
  intros Hd Hk He Hm.
  assert (Hp : 0 < 2 ^ k) by (apply Z.pow_pos_nonneg; lia).
  assert (Hdm : Zpos (digits2_pos m) = 53 + k).
  { apply digits2_pos_unique. pose proof (digits2_pos_bounds q) as Bq. rewrite Hd in Bq.
    rewrite Hm. replace (53 + k - 1) with (53 - 1 + k) by lia.
    rewrite !Z.pow_add_r by lia. nia. }
  destruct k as [|pk|pk]; [| | lia].
  - rewrite Z.mul_1_r in Hm. injection Hm as ->. rewrite Z.add_0_r.
    apply binary_round_aux_exact; [exact Hd | lia].
  - unfold binary_round_aux, shr_fexp, fexp, emin, prec, emax. simpl Zdigits2.
    rewrite Hdm.
    replace (Z.max (53 + Zpos pk + e - 53) (3 - 1024 - 53) - e) with (Zpos pk) by lia.
    unfold shr at 1. simpl shr_record_of_loc. rewrite Hm.
    rewrite iter_shr_1_exact by lia. simpl shr_m. simpl loc_of_shr_record.
    simpl round_nearest_even. simpl Zdigits2. rewrite Hd.
    replace (Z.max (53 + (e + Zpos pk) - 53) (3 - 1024 - 53) - (e + Zpos pk)) with 0 by lia.
    simpl. change (1024 - 53) with 971.
    destruct (Z.leb_spec (e + Zpos pk) 971); [reflexivity | lia].
Qed.

Lemma shl_align_value (m : positive) (e e' : Z) :
  e' <= e ->
  Zpos (fst (shl_align m e e')) = Zpos m * 2 ^ (e - e').
Proof.
  intros H. unfold shl_align. destruct (e' - e) as [|d|d] eqn:E; simpl; [| lia |].
  - replace (e - e') with 0 by lia. lia.
  - rewrite iter_xO_value. f_equal. f_equal. lia.
Qed.

(** Adding two positive integers whose sum has at most 53 digits is exact. *)
Lemma add_of_Z_pos (px py : positive) :
  Zpos px + Zpos py < 2 ^ 53 ->
  add (of_Z (Zpos px)) (of_Z (Zpos py)) = of_Z (Zpos px + Zpos py).
Proof.
  intros Hsum.
  assert (Hdx : Zpos (digits2_pos px) <= 53) by (apply digits2_pos_le; lia).
  assert (Hdy : Zpos (digits2_pos py) <= 53) by (apply digits2_pos_le; lia).
  assert (Hdn : Zpos (digits2_pos (px + py)) <= 53)
    by (apply digits2_pos_le; rewrite Pos2Z.inj_add; lia).
  destruct (of_Z_pos px Hdx) as (mx & Ex & Hmx & Dmx).
  destruct (of_Z_pos py Hdy) as (my & Ey & Hmy & Dmy).
  destruct (of_Z_pos (px + py) Hdn) as (mn & En & Hmn & Dmn).
  change (Zpos px + Zpos py) with (Zpos (px + py)). rewrite Ex, Ey, En. clear Ex Ey En.
  pose proof (digits2_pos_bounds px) as Bx. pose proof (digits2_pos_bounds py) as By.
  pose proof (digits2_pos_bounds (px + py)) as Bn. rewrite Pos2Z.inj_add in Bn, Hmn.
  set (dx := Zpos (digits2_pos px)) in *. set (dy := Zpos (digits2_pos py)) in *.
  set (dn := Zpos (digits2_pos (px + py))) in *.
  assert (Hdx0 : 0 < dx) by (unfold dx; lia). assert (Hdy0 : 0 < dy) by (unfold dy; lia).
  clearbody dx dy dn. clear Hsum.
  assert (Hxn : dx <= dn).
  { destruct (Z.le_gt_cases dx dn) as [|C]; [assumption |].
    assert (2 ^ dn <= 2 ^ (dx - 1)) by (apply Z.pow_le_mono_r; lia). lia. }
  assert (Hyn : dy <= dn).
  { destruct (Z.le_gt_cases dy dn) as [|C]; [assumption |].
    assert (2 ^ dn <= 2 ^ (dy - 1)) by (apply Z.pow_le_mono_r; lia). lia. }
  unfold add, SFadd. set (ez := Z.min (dx - 53) (dy - 53)).
  pose proof (shl_align_value mx (dx - 53) ez ltac:(unfold ez; lia)) as Vx.
  pose proof (shl_align_value my (dy - 53) ez ltac:(unfold ez; lia)) as Vy.
  simpl cond_Zopp.
  set (ax := fst (shl_align mx (dx - 53) ez)) in *.
  set (ay := fst (shl_align my (dy - 53) ez)) in *.
  change (Zpos ax + Zpos ay) with (Zpos (ax + ay)).
  assert (Hez : -52 <= ez <= 0) by (unfold ez; lia).
  assert (HS : Zpos (ax + ay) = (Zpos px + Zpos py) * 2 ^ (- ez)).
  { rewrite Pos2Z.inj_add, Vx, Vy, Hmx, Hmy.
    rewrite <- !Z.mul_assoc, <- !Z.pow_add_r by lia.
    replace (53 - dx + (dx - 53 - ez)) with (- ez) by lia.
    replace (53 - dy + (dy - 53 - ez)) with (- ez) by lia. lia. }
  assert (Hp : 0 < 2 ^ (- ez)) by (apply Z.pow_pos_nonneg; lia).
  assert (HdS : Zpos (digits2_pos (ax + ay)) = dn - ez).
  { apply digits2_pos_unique. rewrite HS.
    replace (dn - ez - 1) with (dn - 1 + - ez) by lia.
    replace (dn - ez) with (dn + - ez) by lia.
    rewrite !Z.pow_add_r by lia.
    split; [apply Z.mul_le_mono_nonneg_r; lia | apply Z.mul_lt_mono_pos_r; lia]. }
  unfold binary_normalize, binary_round, shl_align, fexp, emin, prec, emax.
  rewrite HdS.
  replace (Z.max (dn - ez + ez - 53) (3 - 1024 - 53)) with (dn - 53) by lia.
  assert (Hsh : 0 <= dn - 53 - ez) by (unfold ez; lia).
  destruct (dn - 53 - ez) as [|d|d] eqn:Esh; [| | lia].
  - replace (dn - 53) with (ez + 0) by lia.
    apply (binary_round_aux_exact_shift false mn 0 ez (ax + ay) Dmn); [lia | lia |].
    rewrite HS, Hmn. rewrite <- Z.mul_assoc. replace (- ez) with (53 - dn) by lia. lia.
  - replace (dn - 53) with (ez + Zpos d) by lia.
    apply (binary_round_aux_exact_shift false mn (Zpos d) ez (ax + ay) Dmn); [lia | lia |].
    rewrite HS, Hmn. rewrite <- Z.mul_assoc, <- Z.pow_add_r by lia.
    f_equal. f_equal. lia.
Qed.

Lemma add_of_nat (x y : nat) :
  Z.of_nat x + Z.of_nat y < 2 ^ 53 ->
  add (of_nat x) (of_nat y) = of_nat (x + y).
Proof.
  intros H. unfold of_nat. rewrite Nat2Z.inj_add.
  destruct (Z.of_nat x) as [|px|px] eqn:Ex; [| | lia];
    destruct (Z.of_nat y) as [|py|py] eqn:Ey; try lia.
  - reflexivity.
  - rewrite Z.add_0_l.
    destruct (of_Z_pos py) as (m & -> & _); [apply digits2_pos_le; lia | reflexivity].
  - rewrite Z.add_0_r.
    destruct (of_Z_pos px) as (m & -> & _); [apply digits2_pos_le; lia | reflexivity].
  - now apply add_of_Z_pos.
Qed.

(** *** Sums and quotients of finite numbers are numbers *)

Lemma shr_m_nonneg (mrs : shr_record) (e n : Z) :
  0 <= shr_m mrs -> 0 <= shr_m (fst (shr mrs e n)).
Proof.
  intros Hm. destruct n as [|p|p]; simpl; try assumption.
  rewrite iter_pos_shr_1_m by assumption.
  apply Z.div_pos; [assumption | apply Z.pow_pos_nonneg; lia].
Qed.

Lemma binary_round_aux_not_nan (sx : bool) (m e : Z) (l : location) :
  0 <= m -> is_nan (binary_round_aux prec emax sx m e l) = false.
Proof.
  intros Hm. unfold binary_round_aux, shr_fexp.
  pose proof (shr_m_nonneg (shr_record_of_loc m l) e
                (fexp prec emax (Zdigits2 m + e) - e)) as H1.
  rewrite shr_record_of_loc_m in H1. specialize (H1 Hm).
  destruct (shr (shr_record_of_loc m l) e _) as [mrs1 e1]. simpl in H1.
  set (m2 := round_nearest_even (shr_m mrs1) (loc_of_shr_record mrs1)).
  assert (H2 : 0 <= m2).
  { unfold m2. destruct (round_nearest_even_cases (shr_m mrs1) (loc_of_shr_record mrs1)); lia. }
  pose proof (shr_m_nonneg (shr_record_of_loc m2 loc_Exact) e1
                (fexp prec emax (Zdigits2 m2 + e1) - e1)) as H3.
  rewrite shr_record_of_loc_m in H3. specialize (H3 H2).
  destruct (shr (shr_record_of_loc m2 loc_Exact) e1 _) as [mrs2 e2]. simpl in H3.
  destruct (shr_m mrs2) as [|p|p]; [reflexivity | | lia].
  destruct (e2 <=? emax - prec); reflexivity.
Qed.

Lemma binary_normalize_not_nan (m e : Z) (szero : bool) :
  is_nan (binary_normalize prec emax m e szero) = false.
Proof.
  destruct m as [|p|p]; simpl; [reflexivity | |];
    unfold binary_round; destruct (shl_align _ _ _) as [mz ez];
    now apply binary_round_aux_not_nan.
Qed.

Lemma add_not_nan (x y : number) :
  is_nan x = false -> is_finite y = true -> is_nan (add x y) = false.
Proof.
  destruct x as [sx|sx| |sx mx ex], y as [sy|sy| |sy my ey]; simpl; try discriminate;
    intros _ _; try reflexivity.
  - destruct sx, sy; reflexivity.
  - apply binary_normalize_not_nan.
Qed.

Lemma div_not_nan (x y : number) (m : positive) (e : Z) :
  is_nan x = false -> y = S754_finite false m e -> is_nan (div x y) = false.
Proof.
  intros Hx ->. destruct x as [sx|sx| |sx mx ex]; simpl; try reflexivity; try discriminate.
  unfold SFdiv_core_binary.
  match goal with |- context [Z.div_eucl ?a ?b] =>
    pose proof (Z_div_mod a b ltac:(lia)) as Hdm;
    assert (Ha : 0 <= a);
    [| destruct (Z.div_eucl a b) as [q r]; apply binary_round_aux_not_nan; nia]
  end.
  destruct (ex - e - _) as [|p|p]; [lia | | lia].
  rewrite Z.shiftl_mul_pow2 by lia. assert (0 < 2 ^ Zpos p) by (apply Z.pow_pos_nonneg; lia). lia.
Qed.

Lemma fold_add_not_nan {A : Type} (f : A -> number) (keep : A -> bool) (l : list A) (acc : number) :
  is_nan acc = false ->
  Forall (fun x => is_finite (f x) = true) l ->
  is_nan (fold_left (fun sum x => if keep x then add sum (f x) else sum) l acc) = false.
Proof.
  revert acc; induction l as [|x l IH]; intros acc Hacc Hl; simpl; [exact Hacc |].
  inversion Hl as [|? ? Hx Hl']; subst. apply IH; [| exact Hl'].
  destruct (keep x); [now apply add_not_nan | exact Hacc].
Qed.

Lemma eqb_refl (x : number) : is_nan x = false -> JsNumber.eqb x x = true.
Proof.
  destruct x as [s|s| |s m e]; try discriminate; intros _; unfold JsNumber.eqb, SFeqb; simpl.
  - reflexivity.
  - destruct s; reflexivity.
  - rewrite Z.compare_refl.
    assert (H : Pos.compare_cont Eq m m = Eq) by apply Pos.compare_refl.
    rewrite H. destruct s; reflexivity.
Qed.

(** [x || 0] changes a number at most in the sign of a zero. *)
Lemma or_else_zero_eqb (x : number) :
  is_nan x = false -> JsNumber.eqb (or_else x zero) x = true.
Proof.
  intros Hx. unfold or_else.
  destruct x as [s|s| |s m e]; try discriminate; simpl;
    try (apply eqb_refl; reflexivity).
  reflexivity.
Qed.

End Rounding.

(* ===================================================================== *)
(** ** The calendar: years, months and the two window starts *)
(* ===================================================================== *)

Section Calendar.

Lemma DayFromYear_succ (y : Z) : DayFromYear (y + 1) = DayFromYear y + DaysInYear y.
Proof.
  unfold DayFromYear, DaysInYear.
  destruct (Z.eqb_spec (y mod 4) 0), (Z.eqb_spec (y mod 100) 0), (Z.eqb_spec (y mod 400) 0);
    simpl; Z.div_mod_to_equations; lia.
Qed.

Lemma DayFromYear_lt (y1 y2 : Z) : y1 < y2 -> DayFromYear y1 < DayFromYear y2.
Proof. unfold DayFromYear. intros. Z.div_mod_to_equations. lia. Qed.

Lemma DayFromYear_le (y1 y2 : Z) : y1 <= y2 -> DayFromYear y1 <= DayFromYear y2.
Proof.
  intros H. destruct (Z.eq_dec y1 y2) as [-> | Hne]; [lia |].
  apply Z.lt_le_incl, DayFromYear_lt. lia.
Qed.

(** [YearFromDay] is the year whose days include day [d]. *)
Lemma YearFromDay_spec (d : Z) :
  DayFromYear (YearFromDay d) <= d < DayFromYear (YearFromDay d + 1).
Proof.
  unfold YearFromDay. set (y := 1970 + 400 * d / 146097).
  assert (H : DayFromYear (y - 1) <= d < DayFromYear (y + 2)).
  { unfold DayFromYear, y. Z.div_mod_to_equations. lia. }
  destruct (Z.leb_spec (DayFromYear (y + 1)) d).
  - replace (y + 1 + 1) with (y + 2) by lia. lia.
  - destruct (Z.leb_spec (DayFromYear y) d).
    + lia.
    + replace (y - 1 + 1) with y by lia. lia.
Qed.

Lemma YearFromTime_spec (u : Z) :
  DayFromYear (YearFromTime u) <= Day u < DayFromYear (YearFromTime u + 1).
Proof. apply YearFromDay_spec. Qed.

Lemma InLeapYear_cases (u : Z) :
  (InLeapYear u = 0 /\ DaysInYear (YearFromTime u) = 365)
  \/ (InLeapYear u = 1 /\ DaysInYear (YearFromTime u) = 366).
Proof.
  unfold InLeapYear, DaysInYear.
  destruct (negb _); [now left |].
  destruct (negb _); [now right |].
  destruct (negb _); [now left | now right].
Qed.

Lemma month_cases (u : Z) :
  let m := MonthFromTime u in
  m = 0 \/ m = 1 \/ m = 2 \/ m = 3 \/ m = 4 \/ m = 5 \/ m = 6 \/ m = 7 \/ m = 8
  \/ m = 9 \/ m = 10 \/ m = 11.
Proof.
  unfold MonthFromTime.
  repeat match goal with |- context [if ?c then _ else _] => destruct c end; tauto.
Qed.

Lemma month_bracket (u : Z) :
  firstDayOfMonth u <= Day u < firstDayOfNextMonth u.
Proof.
  unfold firstDayOfMonth, firstDayOfNextMonth, DaysBeforeNextMonth.
  pose proof (YearFromDay_spec (Day u)) as HY. fold (YearFromTime u) in HY.
  rewrite DayFromYear_succ in HY.
  pose proof (InLeapYear_cases u) as HL.
  unfold MonthFromTime, DayWithinYear.
  set (d := Day u - DayFromYear (YearFromTime u)).
  assert (Hd : Day u = DayFromYear (YearFromTime u) + d) by (unfold d; lia).
  rewrite Hd at 1 2. rewrite Hd in HY. clearbody d.
  set (leap := InLeapYear u) in *. clearbody leap.
  repeat match goal with |- context [if ?a <? ?b then _ else _] =>
    destruct (Z.ltb_spec a b) end; simpl; lia.
Qed.

Lemma same_year_same_leap (u v : Z) :
  YearFromTime u = YearFromTime v -> InLeapYear u = InLeapYear v.
Proof. unfold InLeapYear. now intros ->. Qed.

Ltac month_enum m :=
  let H := fresh "Hm" in
  assert (H : m = 0 \/ m = 1 \/ m = 2 \/ m = 3 \/ m = 4 \/ m = 5 \/ m = 6 \/ m = 7
              \/ m = 8 \/ m = 9 \/ m = 10 \/ m = 11) by lia;
  destruct H as [->|[->|[->|[->|[->|[->|[->|[->|[->|[->|[->| ->]]]]]]]]]]].

Lemma DaysBeforeMonth_mono (leap m1 m2 : Z) :
  0 <= leap <= 1 -> 0 <= m1 <= m2 -> m2 <= 11 ->
  DaysBeforeMonth leap m1 <= DaysBeforeMonth leap m2.
Proof.
  intros Hl H1 H2. month_enum m1; month_enum m2; cbn [DaysBeforeMonth]; lia.
Qed.

Lemma DaysBeforeMonth_nonneg (leap m : Z) :
  0 <= leap <= 1 -> 0 <= m <= 11 -> 0 <= DaysBeforeMonth leap m.
Proof. intros Hl Hm. month_enum m; simpl; lia. Qed.

Lemma DaysBeforeMonth_next (leap m1 m2 : Z) :
  0 <= leap <= 1 -> 0 <= m1 < m2 -> m2 <= 11 ->
  DaysBeforeNextMonth leap m1 <= DaysBeforeMonth leap m2.
Proof.
  intros Hl H1 H2. unfold DaysBeforeNextMonth. month_enum m1; month_enum m2; simpl; lia.
Qed.

Lemma month_range (u : Z) : 0 <= MonthFromTime u <= 11.
Proof. pose proof (month_cases u) as H. simpl in H. lia. Qed.

Lemma leap_range (u : Z) : 0 <= InLeapYear u <= 1.
Proof. pose proof (InLeapYear_cases u). lia. Qed.

Lemma month_le_iff (u v : Z) : month_le u v <-> firstDayOfMonth u <= Day v.
Proof.
  pose proof (month_bracket u) as Bu. pose proof (month_bracket v) as Bv.
  pose proof (YearFromTime_spec u) as Yu. pose proof (YearFromTime_spec v) as Yv.
  pose proof (month_range u) as Ru. pose proof (month_range v) as Rv.
  pose proof (leap_range u) as Lu.
  unfold firstDayOfMonth, firstDayOfNextMonth in Bu, Bv.
  unfold month_le, firstDayOfMonth. split.
  - intros [Hlt | [Heq Hm]].
    + assert (DayFromYear (YearFromTime u + 1) <= DayFromYear (YearFromTime v))
        by (apply DayFromYear_le; lia).
      pose proof (DaysBeforeMonth_nonneg (InLeapYear u) (MonthFromTime u) Lu Ru) as Hz.
      lia.
    + rewrite <- (same_year_same_leap u v Heq), <- Heq in Bv.
      pose proof (DaysBeforeMonth_mono (InLeapYear u) _ _ Lu (conj (proj1 Ru) Hm) (proj2 Rv)).
      lia.
  - intros H.
    destruct (Z.lt_trichotomy (YearFromTime u) (YearFromTime v)) as [C | [C | C]].
    + left. exact C.
    + right. split; [exact C |].
      rewrite <- (same_year_same_leap u v C), <- C in Bv.
      destruct (Z.le_gt_cases (MonthFromTime u) (MonthFromTime v)) as [|Hgt]; [assumption |].
      pose proof (DaysBeforeMonth_next (InLeapYear u) (MonthFromTime v) (MonthFromTime u) Lu
                    ltac:(lia) ltac:(lia)).
      lia.
    + exfalso.
      assert (DayFromYear (YearFromTime v + 1) <= DayFromYear (YearFromTime u))
        by (apply DayFromYear_le; lia).
      pose proof (DaysBeforeMonth_nonneg (InLeapYear u) (MonthFromTime u) Lu Ru) as Hz.
      lia.
Qed.

Lemma Day_le (u v : Z) : u <= v -> Day u <= Day v.
Proof. intros H. unfold Day, msPerDay. now apply Z.div_le_mono. Qed.

Lemma day_start_le (d u : Z) : d * msPerDay <= u <-> d <= Day u.
Proof. unfold Day, msPerDay. split; intros H; Z.div_mod_to_equations; lia. Qed.

Lemma year_le_iff (u v : Z) :
  YearFromTime u <= YearFromTime v <-> DayFromYear (YearFromTime u) <= Day v.
Proof.
  pose proof (YearFromDay_spec (Day v)) as Yv. fold (YearFromTime v) in Yv. split.
  - intros H. pose proof (DayFromYear_le _ _ H). lia.
  - intros H. destruct (Z.le_gt_cases (YearFromTime u) (YearFromTime v)) as [|C]; [assumption |].
    assert (DayFromYear (YearFromTime v + 1) <= DayFromYear (YearFromTime u))
      by (apply DayFromYear_le; lia). lia.
Qed.

Lemma month_le_refl_day (u v : Z) : u <= v -> month_le u v.
Proof.
  intros H. apply month_le_iff. pose proof (month_bracket u). pose proof (Day_le u v H). lia.
Qed.

Lemma month_le_antisym (u v : Z) :
  month_le u v -> month_le v u ->
  YearFromTime u = YearFromTime v /\ MonthFromTime u = MonthFromTime v.
Proof. unfold month_le. lia. Qed.

(** The first midnight of a month lies in that month, on its first day. *)
Lemma first_of_month_reading (u : Z) :
  let l := firstDayOfMonth u * msPerDay in
  YearFromTime l = YearFromTime u /\ MonthFromTime l = MonthFromTime u
  /\ DateFromTime l = 1 /\ l mod msPerDay = 0.
Proof.
  intros l.
  assert (Hday : Day l = firstDayOfMonth u).
  { unfold l, Day, msPerDay. apply Z.div_mul. lia. }
  assert (Hle : l <= u).
  { unfold l. apply day_start_le. pose proof (month_bracket u). lia. }
  assert (H1 : month_le u l) by (apply month_le_iff; lia).
  assert (H2 : month_le l u) by now apply month_le_refl_day.
  destruct (month_le_antisym _ _ H2 H1) as [Ey Em].
  split; [exact Ey |]. split; [exact Em |]. split.
  - unfold DateFromTime, DayWithinYear.
    rewrite (same_year_same_leap l u Ey), Ey, Em, Hday. unfold firstDayOfMonth. lia.
  - unfold l, msPerDay. apply Z.mod_mul. lia.
Qed.

(** The first midnight of a year lies in that year, on the first of
    January. *)
Lemma first_of_year_reading (u : Z) :
  let l := DayFromYear (YearFromTime u) * msPerDay in
  YearFromTime l = YearFromTime u /\ MonthFromTime l = 0
  /\ DateFromTime l = 1 /\ l mod msPerDay = 0.
Proof.
  intros l.
  assert (Hday : Day l = DayFromYear (YearFromTime u)).
  { unfold l, Day, msPerDay. apply Z.div_mul. lia. }
  pose proof (YearFromTime_spec u) as Yu. pose proof (YearFromTime_spec l) as Yl.
  assert (Ey : YearFromTime l = YearFromTime u).
  { apply Z.le_antisymm; apply year_le_iff; lia. }
  assert (Hd : DayWithinYear l = 0) by (unfold DayWithinYear; rewrite Ey, Hday; lia).
  assert (Em : MonthFromTime l = 0) by (unfold MonthFromTime; now rewrite Hd).
  split; [exact Ey |]. split; [exact Em |]. split.
  - unfold DateFromTime. rewrite Hd, Em. reflexivity.
  - unfold l, msPerDay. apply Z.mod_mul. lia.
Qed.

Section Windows.

Variable LocalTZA : TimeZone.
Variable now : Z.
Hypothesis local_after_epoch : 0 <= LocalTime LocalTZA now.
Hypothesis local_in_range : LocalTime LocalTZA now <= 8640000000000000 - msPerDay.
Hypothesis offset_below_a_day : forall l, Z.abs (LocalTZA l false) <= msPerDay.

Lemma year_after_epoch : 1970 <= YearFromTime (LocalTime LocalTZA now).
Proof.
  set (u := LocalTime LocalTZA now) in *.
  pose proof (YearFromTime_spec u) as HY.
  destruct (Z.le_gt_cases 1970 (YearFromTime u)) as [|C]; [assumption |].
  assert (DayFromYear (YearFromTime u + 1) <= DayFromYear 1970)
    by (apply DayFromYear_le; lia).
  assert (0 <= Day u) by (apply day_start_le; lia).
  change (DayFromYear 1970) with 0 in *. lia.
Qed.

(** [new Date(year, month, 1)] of the present moment is the instant the
    zone assigns to the first local midnight of the month. *)
Lemma monthStart_value :
  monthStart LocalTZA now = Some (UTC LocalTZA (month_midnight LocalTZA now)).
Proof.
  pose proof year_after_epoch as HY.
  unfold month_midnight.
  set (u := LocalTime LocalTZA now) in *.
  pose proof (month_range u) as HM.
  pose proof (month_bracket u) as HB.
  pose proof (leap_range u) as HL.
  assert (Hle : firstDayOfMonth u * msPerDay <= u) by (apply day_start_le; lia).
  assert (H0 : 0 <= firstDayOfMonth u).
  { unfold firstDayOfMonth.
    pose proof (DayFromYear_le 1970 _ HY) as H1. change (DayFromYear 1970) with 0 in H1.
    pose proof (DaysBeforeMonth_nonneg (InLeapYear u) (MonthFromTime u) HL HM) as H2.
    lia. }
  unfold monthStart, Date_ymd, getFullYear, getMonth, MakeDate, MakeDay. fold u.
  destruct (Z.leb_spec (YearFromTime u) 99) as [|_]; [lia |].
  rewrite andb_false_r.
  rewrite Z.div_small, Z.mod_small, !Z.add_0_r by lia.
  replace (DayFromYear (YearFromTime u)
           + DaysBeforeMonth (if DaysInYear (YearFromTime u) =? 366 then 1 else 0)
               (MonthFromTime u) + 1 - 1)
    with (firstDayOfMonth u) by (unfold firstDayOfMonth, InLeapYear; lia).
  set (l := firstDayOfMonth u * msPerDay) in *.
  pose proof (offset_below_a_day l) as Ho.
  unfold TimeClip, UTC.
  destruct (Z.leb_spec (Z.abs (l - LocalTZA l false)) 8640000000000000) as [|C];
    [reflexivity |].
  assert (0 <= l) by (unfold l, msPerDay; lia).
  unfold msPerDay in *. lia.
Qed.

(** [new Date(year, 0, 1)], likewise, for the first local midnight of the
    year. *)
Lemma yearStart_value :
  yearStart LocalTZA now = Some (UTC LocalTZA (year_midnight LocalTZA now)).
Proof.
  pose proof year_after_epoch as HY.
  unfold year_midnight.
  set (u := LocalTime LocalTZA now) in *.
  pose proof (YearFromTime_spec u) as HS.
  assert (Hle : DayFromYear (YearFromTime u) * msPerDay <= u) by (apply day_start_le; lia).
  pose proof (DayFromYear_le 1970 _ HY) as H0. change (DayFromYear 1970) with 0 in H0.
  unfold yearStart, Date_ymd, getFullYear, MakeDate, MakeDay. fold u.
  destruct (Z.leb_spec (YearFromTime u) 99) as [|_]; [lia |].
  rewrite andb_false_r.
  change (0 / 12) with 0. change (0 mod 12) with 0. rewrite !Z.add_0_r.
  cbn [DaysBeforeMonth].
  replace (DayFromYear (YearFromTime u) + 1 - 1) with (DayFromYear (YearFromTime u)) by lia.
  set (l := DayFromYear (YearFromTime u) * msPerDay) in *.
  pose proof (offset_below_a_day l) as Ho.
  unfold TimeClip, UTC.
  destruct (Z.leb_spec (Z.abs (l - LocalTZA l false)) 8640000000000000) as [|C];
    [reflexivity |].
  assert (0 <= l) by (unfold l, msPerDay; lia).
  unfold msPerDay in *. lia.
Qed.

(** Where the zone does not skip it, the month starts at the instant at
    which the local clock reads its first midnight. *)
Lemma monthStart_reading :
  reading_exists LocalTZA (month_midnight LocalTZA now) ->
  exists start,
    monthStart LocalTZA now = Some start /\ starts_local_month LocalTZA now start.
Proof.
  intros Hr. exists (UTC LocalTZA (month_midnight LocalTZA now)).
  split; [apply monthStart_value |].
  unfold starts_local_month. rewrite Hr.
  apply (first_of_month_reading (LocalTime LocalTZA now)).
Qed.

Lemma yearStart_reading :
  reading_exists LocalTZA (year_midnight LocalTZA now) ->
  exists start,
    yearStart LocalTZA now = Some start /\ starts_local_year LocalTZA now start.
Proof.
  intros Hr. exists (UTC LocalTZA (year_midnight LocalTZA now)).
  split; [apply yearStart_value |].
  unfold starts_local_year. rewrite Hr.
  apply (first_of_year_reading (LocalTime LocalTZA now)).
Qed.

End Windows.

End Calendar.

(* ===================================================================== *)
(** ** Payment statistics *)
(* ===================================================================== *)

Section PaymentStats.

Variable LocalTZA : TimeZone.
Variable now : Z.

(** The conditional [reduce] is the sum over the filtered list. *)
Lemma fold_keep_sum (keep : Payment.t -> bool) (l : list Payment.t) (acc : number) :
  fold_left (fun sum payment => if keep payment then add sum (Payment.amount payment) else sum)
    l acc
  = fold_left add (List.map Payment.amount (List.filter keep l)) acc.
Proof.
  revert acc; induction l as [|p l IH]; intros acc; simpl; [reflexivity |].
  destruct (keep p); simpl; apply IH.
Qed.

(** The component's status test and the status a payment reads agree. *)
Lemma status_is_has_status (status : string) (p : Payment.t) :
  status_is Payment.status status p = has_status status p.
Proof.
  unfold status_is, has_status.
  destruct (String.eqb_spec (Payment.status p) status) as [E | E];
    destruct (string_dec (Payment.status p) status); congruence.
Qed.

Lemma reduce_status_sum (status : string) (l : list Payment.t) :
  reduce_status status l = sum (amounts_with status l).
Proof.
  unfold reduce_status, amounts_with. rewrite fold_keep_sum.
  unfold sum. do 2 f_equal. apply filter_ext. intros p. apply status_is_has_status.
Qed.

Lemma reduce_status_filter (status : string) (keep : Payment.t -> bool) (l : list Payment.t) :
  reduce_status status (List.filter keep l)
  = sum (List.map Payment.amount
           (List.filter (fun p => has_status status p && keep p) l)).
Proof.
  rewrite reduce_status_sum. unfold amounts_with. f_equal. f_equal.
  induction l as [|p l IH]; simpl; [reflexivity |].
  destruct (keep p); simpl.
  - rewrite andb_true_r. destruct (has_status status p); [f_equal |]; exact IH.
  - rewrite andb_false_r. exact IH.
Qed.

Lemma reduce_status_not_nan (status : string) (l : list Payment.t) :
  finite_amounts l -> is_nan (reduce_status status l) = false.
Proof. intros H. now apply fold_add_not_nan. Qed.

Lemma reduce_status_skip (status : string) (l1 l2 : list Payment.t) (p : Payment.t) :
  Payment.status p <> status ->
  reduce_status status (l1 ++ p :: l2) = reduce_status status (l1 ++ l2).
Proof.
  intros Hp. unfold reduce_status. rewrite !fold_left_app. simpl.
  unfold status_is at 2. destruct (String.eqb_spec (Payment.status p) status); [contradiction |].
  reflexivity.
Qed.

(** The component's date test is the test against the window's start. *)
Lemma dated_since_dated_from (start : timeval) (p : Payment.t) :
  dated_since start p = dated_from start p.
Proof.
  unfold dated_since, dated_from, date_geb.
  destruct start as [from|], (Payment.date p) as [[t|]|]; reflexivity.
Qed.

(** C4. total_revenue is the sum of the amounts of exactly the payments
    whose status reads 'paid', pending_payments that of exactly those whose
    status reads 'pending' and overdue_payments that of exactly those whose
    status reads 'overdue', each with the fallback [|| 0]; for finite
    amounts the fallback changes nothing and each field equals its sum. A
    payment of any other status can be dropped from the list without
    changing any of the three. *)
Theorem payment_sums_by_status (pid : string)
    (rooms : option (list Room.t)) (tenants historicalTenants : option (list Tenant.t))
    (maintenanceRequests : option (list MaintenanceRequest.t))
    (payments : list Payment.t) :
  let stats l := computeStats LocalTZA now pid rooms tenants historicalTenants (Some l)
                   maintenanceRequests in
  (PropertyStats.total_revenue (stats payments)
   = or_else (sum (amounts_with "paid" payments)) zero
   /\ PropertyStats.pending_payments (stats payments)
      = or_else (sum (amounts_with "pending" payments)) zero
   /\ PropertyStats.overdue_payments (stats payments)
      = or_else (sum (amounts_with "overdue" payments)) zero)
  /\
  (finite_amounts payments ->
   num_equal (PropertyStats.total_revenue (stats payments)) (sum (amounts_with "paid" payments))
   /\ num_equal (PropertyStats.pending_payments (stats payments))
                (sum (amounts_with "pending" payments))
   /\ num_equal (PropertyStats.overdue_payments (stats payments))
                (sum (amounts_with "overdue" payments)))
  /\
  (forall l1 p l2, payments = l1 ++ p :: l2 -> other_status p ->
   PropertyStats.total_revenue (stats payments) = PropertyStats.total_revenue (stats (l1 ++ l2))
   /\ PropertyStats.pending_payments (stats payments)
      = PropertyStats.pending_payments (stats (l1 ++ l2))
   /\ PropertyStats.overdue_payments (stats payments)
      = PropertyStats.overdue_payments (stats (l1 ++ l2))).
Proof.
  intros stats. subst stats. simpl. split; [| split].
  - now rewrite !reduce_status_sum.
  - intros Hfin. unfold num_equal.
    rewrite <- !reduce_status_sum.
    repeat split; apply or_else_zero_eqb; now apply reduce_status_not_nan.
  - intros l1 p l2 -> (H1 & H2 & H3).
    now rewrite !reduce_status_skip.
Qed.

(** C5, amended. monthly_revenue is the sum of the amounts of the paid
    payments dated at or after the start of the current month, and
    yearly_revenue the sum of those dated at or after the start of the
    current year, the starts being the instants [new Date(year, month, 1)]
    and [new Date(year, 0, 1)] of the present moment; neither window has an
    upper end, and payments without a date are in neither sum. For a
    present moment whose local clock reads 1970 or later and at least a day
    before the end of the Date range, in a zone whose offset stays within a
    day, each start is, where no clock change skips that midnight, an
    instant at which the local clock reads midnight on the first day of the
    current month, or of the current year. *)
Theorem revenue_windows (pid : string)
    (rooms : option (list Room.t)) (tenants historicalTenants : option (list Tenant.t))
    (maintenanceRequests : option (list MaintenanceRequest.t))
    (payments : list Payment.t) :
  let stats := computeStats LocalTZA now pid rooms tenants historicalTenants (Some payments)
                 maintenanceRequests in
  (PropertyStats.monthly_revenue stats
   = sum (paid_amounts (dated_from (monthStart LocalTZA now)) payments)
   /\ PropertyStats.yearly_revenue stats
      = sum (paid_amounts (dated_from (yearStart LocalTZA now)) payments)
   /\ (forall start p, Payment.date p = None -> dated_from start p = false))
  /\
  (0 <= LocalTime LocalTZA now <= 8640000000000000 - msPerDay ->
   (forall l, Z.abs (LocalTZA l false) <= msPerDay) ->
   (reading_exists LocalTZA (month_midnight LocalTZA now) ->
    exists start,
      monthStart LocalTZA now = Some start /\ starts_local_month LocalTZA now start)
   /\ (reading_exists LocalTZA (year_midnight LocalTZA now) ->
       exists start,
         yearStart LocalTZA now = Some start /\ starts_local_year LocalTZA now start)).
Proof.
  intros stats. subst stats. simpl. split.
  - unfold monthlyRevenue, yearlyRevenue, monthlyPayments, yearlyPayments, paid_amounts.
    rewrite !reduce_status_filter.
    split; [| split].
    + do 2 f_equal. apply filter_ext. intros p. f_equal. apply dated_since_dated_from.
    + do 2 f_equal. apply filter_ext. intros p. f_equal. apply dated_since_dated_from.
    + intros start p Hp. unfold dated_from. rewrite Hp. now destruct start.
  - intros [H1 H2] H3. split.
    + now apply monthStart_reading.
    + now apply yearStart_reading.
Qed.

End PaymentStats.

Lemma payment_sums_by_status_witness :
  let stats l := computeStats Example.tz Example.now "p1" None None None (Some l) None in
  (PropertyStats.total_revenue (stats Example.payments) = of_Z 1700000
   /\ PropertyStats.pending_payments (stats Example.payments) = of_Z 450000
   /\ PropertyStats.overdue_payments (stats Example.payments) = of_Z 400000)
  /\ (num_equal (PropertyStats.total_revenue (stats Example.payments))
        (sum (amounts_with "paid" Example.payments))
      /\ num_equal (PropertyStats.pending_payments (stats Example.payments))
           (sum (amounts_with "pending" Example.payments))
      /\ num_equal (PropertyStats.overdue_payments (stats Example.payments))
           (sum (amounts_with "overdue" Example.payments)))
  /\ PropertyStats.total_revenue (stats Example.payments)
     = PropertyStats.total_revenue
         (stats (firstn 4 Example.payments ++ skipn 5 Example.payments)).
Proof.
  destruct (payment_sums_by_status Example.tz Example.now "p1" None None None None
              Example.payments) as ((Hpaid & Hpending & Hoverdue) & Hsum & Hskip).
  split; [| split].
  - rewrite Hpaid, Hpending, Hoverdue. repeat split; vm_compute; reflexivity.
  - apply Hsum. unfold finite_amounts, Example.payments. repeat constructor.
  - apply (Hskip (firstn 4 Example.payments)
             (Payment.mk "pay5" "p1" "cancelled" (of_Z 100000) (Some (Some 1710200000000)) 50)
             (skipn 5 Example.payments) eq_refl).
    repeat split; discriminate.
Defined.

(** C5, as written, fails: a paid payment dated ten months after the
    present moment is counted in monthly_revenue and in yearly_revenue,
    while no paid payment is dated in the current month or year to date. *)
Lemma revenue_counts_later_payments :
  let stats := computeStats Example.tz Example.now "p1" None None None (Some Example.prepaid)
                 None in
  sum (paid_amounts (in_month_to_date Example.tz Example.now) Example.prepaid) = zero
  /\ sum (paid_amounts (in_year_to_date Example.tz Example.now) Example.prepaid) = zero
  /\ PropertyStats.monthly_revenue stats = of_Z 600000
  /\ PropertyStats.yearly_revenue stats = of_Z 600000
  /\ ~ num_equal (PropertyStats.monthly_revenue stats)
         (sum (paid_amounts (in_month_to_date Example.tz Example.now) Example.prepaid))
  /\ ~ num_equal (PropertyStats.yearly_revenue stats)
         (sum (paid_amounts (in_year_to_date Example.tz Example.now) Example.prepaid)).
Proof.
  repeat split; try reflexivity; intros H; vm_compute in H; discriminate.
Qed.

(** In US Eastern time on 2024-11-15 the month began in daylight time, at
    04:00Z on the first of November, and the year in standard time, at
    05:00Z on the first of January. *)
Lemma revenue_windows_witness :
  let stats := computeStats Example.eastern Example.autumn "p1" None None None
                 (Some Example.autumn_payments) None in
  (PropertyStats.monthly_revenue stats = of_Z 500000
   /\ PropertyStats.yearly_revenue stats = of_Z 700000)
  /\ (monthStart Example.eastern Example.autumn = Some 1730433600000
      /\ starts_local_month Example.eastern Example.autumn 1730433600000)
  /\ (yearStart Example.eastern Example.autumn = Some 1704085200000
      /\ starts_local_year Example.eastern Example.autumn 1704085200000).
Proof.
  destruct (revenue_windows Example.eastern Example.autumn "p1" None None None None
              Example.autumn_payments) as ((Hm & Hy & _) & Hstart).
  assert (Hrange : 0 <= LocalTime Example.eastern Example.autumn
                   <= 8640000000000000 - msPerDay)
    by (split; vm_compute; discriminate).
  assert (Hzone : forall l, Z.abs (Example.eastern l false) <= msPerDay).
  { intros l. unfold Example.eastern.
    destruct ((1710039600000 <=? l) && (l <? 1730599200000)); vm_compute; discriminate. }
  destruct (Hstart Hrange Hzone) as [Hmonth Hyear].
  assert (Em : monthStart Example.eastern Example.autumn = Some 1730433600000)
    by (vm_compute; reflexivity).
  assert (Ey : yearStart Example.eastern Example.autumn = Some 1704085200000)
    by (vm_compute; reflexivity).
  split; [| split].
  - rewrite Hm, Hy. split; vm_compute; reflexivity.
  - destruct Hmonth as (start & Es & Hs); [vm_compute; reflexivity |].
    rewrite Em in Es. injection Es as <-. split; [reflexivity | exact Hs].
  - destruct Hyear as (start & Es & Hs); [vm_compute; reflexivity |].
    rewrite Ey in Es. injection Es as <-. split; [reflexivity | exact Hs].
Defined.

(* ===================================================================== *)
(** ** Room and tenant statistics *)
(* ===================================================================== *)

Section RoomStats.

Variable LocalTZA : TimeZone.
Variable now : Z.

Lemma fold_left_add_map {A : Type} (f : A -> number) (l : list A) (acc : number) :
  fold_left (fun sum x => add sum (f x)) l acc = fold_left add (List.map f l) acc.
Proof. revert acc; induction l as [|x l IH]; intros acc; simpl; [reflexivity | apply IH]. Qed.

Lemma sum_not_nan (l : list number) (acc : number) :
  is_nan acc = false -> Forall (fun x => is_finite x = true) l ->
  is_nan (fold_left add l acc) = false.
Proof.
  revert acc; induction l as [|x l IH]; intros acc Hacc Hl; simpl; [exact Hacc |].
  inversion Hl as [|? ? Hx Hl']; subst. apply IH; [now apply add_not_nan | exact Hl'].
Qed.

(** The length of a non-empty array is a positive binary64 number. *)
Lemma of_nat_length_finite (n : nat) :
  (0 < n)%nat -> Z.of_nat n < 2 ^ 32 ->
  exists m e, of_nat n = S754_finite false m e.
Proof.
  intros Hn Hb. unfold of_nat. destruct (Z.of_nat n) as [|p|p] eqn:E; [lia | | lia].
  destruct (of_Z_pos p) as (m & Hm & _).
  - assert (Zpos (digits2_pos p) <= 32) by (apply digits2_pos_le; lia). lia.
  - eauto.
Qed.

Lemma occupied_le_total (l : list Room.t) :
  (length (List.filter (status_is Room.status "occupied") l) <= length l)%nat.
Proof.
  induction l as [|r l IH]; simpl; [lia |].
  destruct (status_is Room.status "occupied" r); simpl; lia.
Qed.

(** C3. Without rooms (the query answered nothing, or no rows)
    occupancy_rate and avg_room_price are both 0. With rooms,
    occupancy_rate is an integer nearest to the exact percentage
    100 * occupied / total, and avg_room_price is, for finite prices, the
    sum of the room prices divided by the number of rooms. *)
Theorem room_statistics (pid : string)
    (rooms : option (list Room.t)) (tenants historicalTenants : option (list Tenant.t))
    (payments : option (list Payment.t))
    (maintenanceRequests : option (list MaintenanceRequest.t)) :
  let stats := computeStats LocalTZA now pid rooms tenants historicalTenants payments
                 maintenanceRequests in
  (totalRooms rooms = 0%nat ->
   PropertyStats.occupancy_rate stats = zero /\ PropertyStats.avg_room_price stats = zero)
  /\
  (forall l, rooms = Some l -> (0 < length l)%nat -> Z.of_nat (length l) < 2 ^ 32 ->
   (exists r,
      PropertyStats.occupancy_rate stats = of_Z r
      /\ nearest_percent
           (Z.of_nat (length (List.filter (status_is Room.status "occupied") l)))
           (Z.of_nat (length l)) r)
   /\ (finite_prices l ->
       num_equal (PropertyStats.avg_room_price stats)
         (div (sum (List.map Room.price l)) (of_nat (length l))))).
Proof.
  intros stats. subst stats. simpl. split.
  - intros H0. unfold occupancyRate, avgRoomPrice. rewrite H0. simpl.
    split; [reflexivity |].
    destruct rooms as [[|r l]|]; [reflexivity | discriminate | reflexivity].
  - intros l -> Hlen Hb. split.
    + unfold occupancyRate. simpl totalRooms. simpl occupiedRooms.
      destruct (Nat.ltb_spec 0 (length l)) as [_|]; [| lia].
      apply percent_nearest.
      * pose proof (occupied_le_total l). lia.
      * lia.
    + intros Hfin. unfold avgRoomPrice. simpl totalRooms.
      rewrite fold_left_add_map. apply or_else_zero_eqb.
      destruct (of_nat_length_finite (length l) Hlen Hb) as (m & e & Hn).
      apply (div_not_nan _ _ m e); [| exact Hn].
      apply sum_not_nan; [reflexivity |].
      unfold finite_prices in Hfin. rewrite List.Forall_forall in Hfin |- *.
      intros x Hx. apply in_map_iff in Hx. destruct Hx as (r & <- & Hr). now apply Hfin.
Qed.

(** C1, on the code. When the inactive-tenants query answers with rows,
    tenant_turnover_rate is, for inactive + active > 0, an integer nearest
    to the exact percentage 100 * inactive / (inactive + active); for
    inactive = active = 0 it is NaN, not 0. It is 0 only when that query
    answers with no data at all. *)
Theorem tenant_turnover_rate_cases (pid : string)
    (rooms : option (list Room.t)) (tenants : option (list Tenant.t))
    (payments : option (list Payment.t))
    (maintenanceRequests : option (list MaintenanceRequest.t))
    (historicalTenants : list Tenant.t) :
  let stats h := computeStats LocalTZA now pid rooms tenants h payments maintenanceRequests in
  let inactive := length historicalTenants in
  let active := length (activeTenants tenants) in
  ((inactive + active = 0)%nat ->
   PropertyStats.tenant_turnover_rate (stats (Some historicalTenants)) = NaN)
  /\ ((0 < inactive + active)%nat -> Z.of_nat (inactive + active) < 2 ^ 32 ->
      exists r,
        PropertyStats.tenant_turnover_rate (stats (Some historicalTenants)) = of_Z r
        /\ nearest_percent (Z.of_nat inactive) (Z.of_nat (inactive + active)) r)
  /\ PropertyStats.tenant_turnover_rate (stats None) = zero.
Proof.
  intros stats inactive active. subst stats inactive active. simpl. unfold turnoverRate.
  split; [| split; [| reflexivity]].
  - intros H0.
    assert (H1 : length historicalTenants = 0%nat) by lia.
    assert (H2 : length (activeTenants tenants) = 0%nat) by lia.
    rewrite H1, H2. reflexivity.
  - intros Hpos Hb. rewrite add_of_nat.
    + apply percent_nearest; lia.
    + assert (2 ^ 32 < 2 ^ 53) by reflexivity. lia.
Qed.

End RoomStats.

Lemma room_statistics_witness :
  let rooms := tbl_rooms (Example.store "admin" Example.no_fault) in
  let stats := computeStats Example.tz Example.now "p1" (Some rooms) None None None None in
  (exists r, PropertyStats.occupancy_rate stats = of_Z r /\ nearest_percent 2 3 r)
  /\ PropertyStats.occupancy_rate stats = of_Z 67
  /\ PropertyStats.avg_room_price stats = of_Z 1200000.
Proof.
  split; [| split; reflexivity].
  apply (proj2 (room_statistics Example.tz Example.now "p1"
                  (Some (tbl_rooms (Example.store "admin" Example.no_fault)))
                  None None None None) _ eq_refl); simpl; lia.
Defined.

Lemma tenant_turnover_rate_cases_witness :
  PropertyStats.tenant_turnover_rate
    (statsFor Example.tz Example.now Example.vacant "p1") = NaN
  /\ exists r,
       PropertyStats.tenant_turnover_rate
         (statsFor Example.tz Example.now (Example.store "admin" Example.no_fault) "p1")
       = of_Z r
       /\ nearest_percent 1 2 r.
Proof.
  split.
  - apply (proj1 (tenant_turnover_rate_cases Example.tz Example.now "p1"
                    (Response.data (response (Supabase.select_rooms Example.vacant "p1")))
                    (Response.data (response (Supabase.select_tenants Example.vacant "p1")))
                    (Response.data (response (Supabase.select_payments Example.vacant "p1")))
                    (Response.data (response (Supabase.select_maintenance_requests Example.vacant "p1")))
                    []) eq_refl).
  - pose (db := Example.store "admin" Example.no_fault).
    apply (proj1 (proj2 (tenant_turnover_rate_cases Example.tz Example.now "p1"
                    (Response.data (response (Supabase.select_rooms db "p1")))
                    (Response.data (response (Supabase.select_tenants db "p1")))
                    (Response.data (response (Supabase.select_payments db "p1")))
                    (Response.data (response (Supabase.select_maintenance_requests db "p1")))
                    [Tenant.mk "p1" "inactive" (Some 1672531200000) (Some 1688169600000)])));
      simpl; lia.
Defined.
